(** * Hospital API: appointment booking and token assignment

    A shallow embedding of the request handlers of [main.py] and of the
    tables of [models.py].  A table is the list of its rows in insertion
    order; a handler is a function from the database to an outcome (a value
    or a raised exception) and the database it leaves behind.  Every
    [db.commit()] of the source is a write of the embedding, so that what a
    handler leaves behind when it raises is proved, not assumed.

    The dependency [Depends(get_current_user)] is resolved before a handler
    body runs and the body never reads it: handlers are embedded from their
    payload and path parameters on. *)

From Stdlib Require Import ZArith List String Bool Lia.
Import ListNotations.
Local Open Scope string_scope.
Local Open Scope list_scope.
Local Open Scope Z_scope.

(* ------------------------------------------------------------------ *)
(** ** Data model ([models.py], and the schemas of [main.py]) *)

(** [datetime.date] and [datetime.time], as the schemas import them; a time
    of day is kept to the minute, and no handler looks inside either. *)
Record dt_date := Date { year : Z; month : Z; day : Z }.
Record dt_time := Time { hour : Z; minute : Z }.

Module Patient.
Record t := mk
  { id : Z; name : string; phone : string; age : Z; gender : string }.
End Patient.

Module Doctor.
Record t := mk
  { id : Z; name : string; phone : string; specialty : string }.
End Doctor.

Module Appointment.
Record t := mk
  { id : Z;
    patient_id : Z;
    doctor_id : Z;
    date : dt_date;
    time : dt_time;
    token_number : Z }.

Definition set_patient_id (a : t) (v : Z) : t :=
  mk (id a) v (doctor_id a) (date a) (time a) (token_number a).
Definition set_doctor_id (a : t) (v : Z) : t :=
  mk (id a) (patient_id a) v (date a) (time a) (token_number a).
Definition set_date (a : t) (v : dt_date) : t :=
  mk (id a) (patient_id a) (doctor_id a) v (time a) (token_number a).
Definition set_time (a : t) (v : dt_time) : t :=
  mk (id a) (patient_id a) (doctor_id a) (date a) v (token_number a).
Definition set_token_number (a : t) (v : Z) : t :=
  mk (id a) (patient_id a) (doctor_id a) (date a) (time a) v.
End Appointment.

(** Request payloads.  [age] carries [Field(ge=0)], which the parsing layer
    enforces before a handler runs; no handler reads [age]. *)
Module PatientCreate.
Record t := mk
  { name : string; phone : string; age : Z; gender : string }.
End PatientCreate.

Module DoctorCreate.
Record t := mk { name : string; phone : string; specialty : string }.
End DoctorCreate.

Module AppointmentCreate.
Record t := mk
  { patient_id : Z; doctor_id : Z; date : dt_date; time : dt_time }.
End AppointmentCreate.

(** The three tables. *)
Record Database := mkDatabase
  { patients : list Patient.t;
    doctors : list Doctor.t;
    appointments : list Appointment.t }.

Definition empty_db : Database := mkDatabase [] [] [].

Definition with_patients (db : Database) (l : list Patient.t) : Database :=
  mkDatabase l (doctors db) (appointments db).
Definition with_doctors (db : Database) (l : list Doctor.t) : Database :=
  mkDatabase (patients db) l (appointments db).
Definition with_appointments (db : Database) (l : list Appointment.t)
  : Database :=
  mkDatabase (patients db) (doctors db) l.

(** Projections of an updated database. *)
Ltac db_simpl :=
  cbn [patients doctors appointments with_patients with_doctors
       with_appointments snd fst].

(* ------------------------------------------------------------------ *)
(** ** Outcomes and the handler monad *)

(** What a handler can raise: the [HTTPException]s of [main.py], the error
    of [Session.refresh] on an object whose row is gone, and the error of a
    [db.commit()] that the store refuses. *)
Inductive Exception :=
| HTTPException (status_code : Z) (detail : string)
| InvalidRequestError
| OperationalError.

Inductive Result (A : Type) :=
| Ok (value : A)
| Raise (e : Exception).
Arguments Ok {A} value.
Arguments Raise {A} e.

(** A handler runs against the database; the database it returns is the
    committed one, also when it raises. *)
Definition Handler (A : Type) : Type := Database -> Result A * Database.

Definition ret {A} (a : A) : Handler A := fun db => (Ok a, db).

Definition raise {A} (e : Exception) : Handler A := fun db => (Raise e, db).

Definition bind {A B} (c : Handler A) (k : A -> Handler B) : Handler B :=
  fun db =>
    match c db with
    | (Ok a, db') => k a db'
    | (Raise e, db') => (Raise e, db')
    end.

Declare Scope handler_scope.
Delimit Scope handler_scope with handler.
Notation "x <- c ;; k" := (bind c (fun x => k))
  (at level 61, c at next level, right associativity) : handler_scope.
Notation "c ;; k" := (bind c (fun _ => k))
  (at level 61, right associativity) : handler_scope.
Local Open Scope handler_scope.

(* ------------------------------------------------------------------ *)
(** ** The session: queries and writes *)

(** Modelled from the spec: [database.py] (the engine and [SessionLocal]) is
    not among the sources, so the key the store gives a new row is taken
    from section 3 of the specification: ids are generated on creation,
    unique and increasing, and the scenario of section 8 starts every table
    at 1.  The generated id is one more than the largest id in the table. *)
Definition generate_id (ids : list Z) : Z := 1 + fold_right Z.max 0 ids.

(** [db.query(T).filter(T.id == x).first()] *)
Definition first {R} (key : R -> Z) (x : Z) (rows : list R) : option R :=
  find (fun r => key r =? x) rows.

Definition query_first {R} (table : Database -> list R) (key : R -> Z)
  (x : Z) : Handler (option R) :=
  fun db => (Ok (first key x (table db)), db).

(** [db.query(T).all()] *)
Definition query_all {R} (table : Database -> list R) : Handler (list R) :=
  fun db => (Ok (table db), db).

(** [UPDATE ... WHERE id = key obj]: the row of the object's primary key
    takes the object's column values. *)
Definition update_row {R} (key : R -> Z) (obj : R) (rows : list R) : list R :=
  map (fun r => if key r =? key obj then obj else r) rows.

(** [DELETE ... WHERE col = x] *)
Definition delete_where {R} (col : R -> Z) (x : Z) (rows : list R) : list R :=
  filter (fun r => negb (col r =? x)) rows.

(** [db.refresh(obj)]: the object is read again by primary key. *)
Definition refresh {R} (table : Database -> list R) (key : R -> Z) (obj : R)
  : Handler R :=
  fun db =>
    match first key (key obj) (table db) with
    | Some r => (Ok r, db)
    | None => (Raise InvalidRequestError, db)
    end.

(** [db.add(obj); db.commit()] for each table: the row is inserted under a
    generated id, which the object then carries.  These, and the commits
    below, are the writes of a store that accepts the commit; a store that
    refuses one, as it does an integer that its column does not hold, is
    taken up with [on_commit] and [integer_column]. *)
Definition add_commit_patient (payload : PatientCreate.t)
  : Handler Patient.t :=
  fun db =>
    let p := Patient.mk (generate_id (map Patient.id (patients db)))
               (PatientCreate.name payload) (PatientCreate.phone payload)
               (PatientCreate.age payload) (PatientCreate.gender payload) in
    (Ok p, with_patients db (patients db ++ [p])).

Definition add_commit_doctor (payload : DoctorCreate.t) : Handler Doctor.t :=
  fun db =>
    let d := Doctor.mk (generate_id (map Doctor.id (doctors db)))
               (DoctorCreate.name payload) (DoctorCreate.phone payload)
               (DoctorCreate.specialty payload) in
    (Ok d, with_doctors db (doctors db ++ [d])).

Definition add_commit_appointment (payload : AppointmentCreate.t)
  (token_number : Z) : Handler Appointment.t :=
  fun db =>
    let a := Appointment.mk
               (generate_id (map Appointment.id (appointments db)))
               (AppointmentCreate.patient_id payload)
               (AppointmentCreate.doctor_id payload)
               (AppointmentCreate.date payload)
               (AppointmentCreate.time payload)
               token_number in
    (Ok a, with_appointments db (appointments db ++ [a])).

(** [db.commit()] after attributes of a persistent object were set. *)
Definition commit_patient (p : Patient.t) : Handler unit :=
  fun db => (Ok tt, with_patients db (update_row Patient.id p (patients db))).

Definition commit_doctor (d : Doctor.t) : Handler unit :=
  fun db => (Ok tt, with_doctors db (update_row Doctor.id d (doctors db))).

Definition commit_appointment (a : Appointment.t) : Handler unit :=
  fun db =>
    (Ok tt,
     with_appointments db (update_row Appointment.id a (appointments db))).

(** [db.delete(obj); db.commit()].  [Patient.appointments] and
    [Doctor.appointments] are declared with [cascade="all, delete-orphan"]:
    deleting the parent deletes the appointments that reference it.  An
    appointment has no such relationship. *)
Definition delete_commit_patient (p : Patient.t) : Handler unit :=
  fun db =>
    (Ok tt,
     mkDatabase
       (delete_where Patient.id (Patient.id p) (patients db))
       (doctors db)
       (delete_where Appointment.patient_id (Patient.id p)
          (appointments db))).

Definition delete_commit_doctor (d : Doctor.t) : Handler unit :=
  fun db =>
    (Ok tt,
     mkDatabase
       (patients db)
       (delete_where Doctor.id (Doctor.id d) (doctors db))
       (delete_where Appointment.doctor_id (Doctor.id d)
          (appointments db))).

Definition delete_commit_appointment (a : Appointment.t) : Handler unit :=
  fun db =>
    (Ok tt,
     with_appointments db
       (delete_where Appointment.id (Appointment.id a) (appointments db))).

(* ------------------------------------------------------------------ *)
(** ** Request handlers ([main.py]) *)

Definition not_found (detail : string) : Exception :=
  HTTPException 404 detail.

(** The loop [for k, v in payload.model_dump().items(): setattr(obj, k, v)],
    unrolled over the fields of each payload: the id is not among them. *)
Definition setattr_patient (p : Patient.t) (payload : PatientCreate.t)
  : Patient.t :=
  Patient.mk (Patient.id p)
    (PatientCreate.name payload) (PatientCreate.phone payload)
    (PatientCreate.age payload) (PatientCreate.gender payload).

Definition setattr_doctor (d : Doctor.t) (payload : DoctorCreate.t)
  : Doctor.t :=
  Doctor.mk (Doctor.id d)
    (DoctorCreate.name payload) (DoctorCreate.phone payload)
    (DoctorCreate.specialty payload).

Definition setattr_appointment (a : Appointment.t)
  (payload : AppointmentCreate.t) : Appointment.t :=
  let a := Appointment.set_patient_id a
             (AppointmentCreate.patient_id payload) in
  let a := Appointment.set_doctor_id a
             (AppointmentCreate.doctor_id payload) in
  let a := Appointment.set_date a (AppointmentCreate.date payload) in
  Appointment.set_time a (AppointmentCreate.time payload).

(** *** Patients *)

Definition create_patient (payload : PatientCreate.t) : Handler Patient.t :=
  p <- add_commit_patient payload ;;
  refresh patients Patient.id p.

Definition list_patients : Handler (list Patient.t) :=
  query_all patients.

Definition get_patient (patient_id : Z) : Handler Patient.t :=
  p <- query_first patients Patient.id patient_id ;;
  match p with
  | None => raise (not_found "Patient not found")
  | Some p => ret p
  end.

Definition update_patient (patient_id : Z) (payload : PatientCreate.t)
  : Handler Patient.t :=
  p <- query_first patients Patient.id patient_id ;;
  match p with
  | None => raise (not_found "Patient not found")
  | Some p =>
      let p := setattr_patient p payload in
      commit_patient p ;;
      refresh patients Patient.id p
  end.

Definition delete_patient (patient_id : Z)
  : Handler (list (string * string)) :=
  p <- query_first patients Patient.id patient_id ;;
  match p with
  | None => raise (not_found "Patient not found")
  | Some p =>
      delete_commit_patient p ;;
      ret [("detail", "Patient deleted")]
  end.

(** *** Doctors *)

Definition create_doctor (payload : DoctorCreate.t) : Handler Doctor.t :=
  d <- add_commit_doctor payload ;;
  refresh doctors Doctor.id d.

Definition list_doctors : Handler (list Doctor.t) :=
  query_all doctors.

Definition get_doctor (doctor_id : Z) : Handler Doctor.t :=
  d <- query_first doctors Doctor.id doctor_id ;;
  match d with
  | None => raise (not_found "Doctor not found")
  | Some d => ret d
  end.

Definition update_doctor (doctor_id : Z) (payload : DoctorCreate.t)
  : Handler Doctor.t :=
  d <- query_first doctors Doctor.id doctor_id ;;
  match d with
  | None => raise (not_found "Doctor not found")
  | Some d =>
      let d := setattr_doctor d payload in
      commit_doctor d ;;
      refresh doctors Doctor.id d
  end.

Definition delete_doctor (doctor_id : Z)
  : Handler (list (string * string)) :=
  d <- query_first doctors Doctor.id doctor_id ;;
  match d with
  | None => raise (not_found "Doctor not found")
  | Some d =>
      delete_commit_doctor d ;;
      ret [("detail", "Doctor deleted")]
  end.

(** *** Appointments *)

(** Lines 226 to 234 of [create_appointment]: both references are checked,
    then the row is inserted with the placeholder token 0 and committed. *)
Definition create_appointment_insert (payload : AppointmentCreate.t)
  : Handler Appointment.t :=
  p <- query_first patients Patient.id
         (AppointmentCreate.patient_id payload) ;;
  match p with
  | None => raise (not_found "Patient not found")
  | Some _ =>
      d <- query_first doctors Doctor.id
             (AppointmentCreate.doctor_id payload) ;;
      match d with
      | None => raise (not_found "Doctor not found")
      | Some _ =>
          appt <- add_commit_appointment payload 0 ;;
          refresh appointments Appointment.id appt
      end
  end.

(** Lines 236 to 240: [token_number = id], in a second commit. *)
Definition create_appointment_assign (appt : Appointment.t)
  : Handler Appointment.t :=
  let appt := Appointment.set_token_number appt (Appointment.id appt) in
  commit_appointment appt ;;
  refresh appointments Appointment.id appt.

Definition create_appointment (payload : AppointmentCreate.t)
  : Handler Appointment.t :=
  appt <- create_appointment_insert payload ;;
  create_appointment_assign appt.

Definition list_appointments : Handler (list Appointment.t) :=
  query_all appointments.

Definition get_appointment (appointment_id : Z) : Handler Appointment.t :=
  appt <- query_first appointments Appointment.id appointment_id ;;
  match appt with
  | None => raise (not_found "Appointment not found")
  | Some appt => ret appt
  end.

Definition update_appointment (appointment_id : Z)
  (payload : AppointmentCreate.t) : Handler Appointment.t :=
  appt <- query_first appointments Appointment.id appointment_id ;;
  match appt with
  | None => raise (not_found "Appointment not found")
  | Some appt =>
      p <- query_first patients Patient.id
             (AppointmentCreate.patient_id payload) ;;
      match p with
      | None => raise (not_found "Patient not found")
      | Some _ =>
          d <- query_first doctors Doctor.id
                 (AppointmentCreate.doctor_id payload) ;;
          match d with
          | None => raise (not_found "Doctor not found")
          | Some _ =>
              let appt := setattr_appointment appt payload in
              commit_appointment appt ;;
              refresh appointments Appointment.id appt
          end
      end
  end.

Definition delete_appointment (appointment_id : Z)
  : Handler (list (string * string)) :=
  appt <- query_first appointments Appointment.id appointment_id ;;
  match appt with
  | None => raise (not_found "Appointment not found")
  | Some appt =>
      delete_commit_appointment appt ;;
      ret [("detail", "Appointment deleted")]
  end.

(* ------------------------------------------------------------------ *)
(** ** Sequences of requests *)

(** One constructor per route that reaches the tables. *)
Inductive Request :=
| POST_patients (payload : PatientCreate.t)
| GET_patients
| GET_patient (patient_id : Z)
| PUT_patient (patient_id : Z) (payload : PatientCreate.t)
| DELETE_patient (patient_id : Z)
| POST_doctors (payload : DoctorCreate.t)
| GET_doctors
| GET_doctor (doctor_id : Z)
| PUT_doctor (doctor_id : Z) (payload : DoctorCreate.t)
| DELETE_doctor (doctor_id : Z)
| POST_appointments (payload : AppointmentCreate.t)
| GET_appointments
| GET_appointment (appointment_id : Z)
| PUT_appointment (appointment_id : Z) (payload : AppointmentCreate.t)
| DELETE_appointment (appointment_id : Z).

(** The database a request leaves behind, the request served as one step. *)
Definition serve (r : Request) (db : Database) : Database :=
  match r with
  | POST_patients payload => snd (create_patient payload db)
  | GET_patients => snd (list_patients db)
  | GET_patient i => snd (get_patient i db)
  | PUT_patient i payload => snd (update_patient i payload db)
  | DELETE_patient i => snd (delete_patient i db)
  | POST_doctors payload => snd (create_doctor payload db)
  | GET_doctors => snd (list_doctors db)
  | GET_doctor i => snd (get_doctor i db)
  | PUT_doctor i payload => snd (update_doctor i payload db)
  | DELETE_doctor i => snd (delete_doctor i db)
  | POST_appointments payload => snd (create_appointment payload db)
  | GET_appointments => snd (list_appointments db)
  | GET_appointment i => snd (get_appointment i db)
  | PUT_appointment i payload => snd (update_appointment i payload db)
  | DELETE_appointment i => snd (delete_appointment i db)
  end.

(** The requests of a list, served one after the other. *)
Definition serve_all (rs : list Request) (db : Database) : Database :=
  fold_left (fun db r => serve r db) rs db.

(** The databases that completed requests can produce from the empty one. *)
Inductive reachable : Database -> Prop :=
| reachable_empty : reachable empty_db
| reachable_serve r db : reachable db -> reachable (serve r db).

(** A table holds a row of the given id. *)
Definition patient_exists (db : Database) (i : Z) : Prop :=
  exists p, In p (patients db) /\ Patient.id p = i.

Definition doctor_exists (db : Database) (i : Z) : Prop :=
  exists d, In d (doctors db) /\ Doctor.id d = i.

Definition appointment_exists (db : Database) (i : Z) : Prop :=
  exists a, In a (appointments db) /\ Appointment.id a = i.

(** The invariants of the tables. *)

(** [primary_key=True] on each [id] column: no two rows share an id. *)
Definition primary_key (db : Database) : Prop :=
  NoDup (map Patient.id (patients db)) /\
  NoDup (map Doctor.id (doctors db)) /\
  NoDup (map Appointment.id (appointments db)).

Definition confirmed (a : Appointment.t) : Prop :=
  Appointment.token_number a = Appointment.id a.

(** Both foreign keys of an appointment resolve. *)
Definition referenced (db : Database) (a : Appointment.t) : Prop :=
  first Patient.id (Appointment.patient_id a) (patients db) <> None /\
  first Doctor.id (Appointment.doctor_id a) (doctors db) <> None.

(** What every reachable database satisfies. *)
Record invariant (db : Database) : Prop := mkInvariant
  { inv_primary_key : primary_key db;
    inv_confirmed : forall a, In a (appointments db) -> confirmed a;
    inv_referenced : forall a, In a (appointments db) -> referenced db a }.

(** A database and payloads to run the handlers on. *)
Definition jane : PatientCreate.t := PatientCreate.mk "Jane" "555" 30 "F".
Definition smith : DoctorCreate.t := DoctorCreate.mk "Smith" "556" "Cardio".
Definition visit1 : AppointmentCreate.t :=
  AppointmentCreate.mk 1 1 (Date 2024 1 10) (Time 9 0).
Definition visit2 : AppointmentCreate.t :=
  AppointmentCreate.mk 1 1 (Date 2024 1 11) (Time 10 0).

Definition visit1_moved : AppointmentCreate.t :=
  AppointmentCreate.mk 1 1 (Date 2024 2 1) (Time 8 30).

Definition front_desk : Database :=
  serve_all
    [POST_patients jane; POST_doctors smith;
     POST_appointments visit1; POST_appointments visit2]
    empty_db.

(** The same front desk after a second patient registered. *)
Definition mary : PatientCreate.t := PatientCreate.mk "Mary" "557" 41 "F".

Definition waiting_room : Database := serve (POST_patients mary) front_desk.

(* ------------------------------------------------------------------ *)
(** ** The requests that only read, and the updates *)

(** The routes declared with [@app.get]. *)
Definition is_get (r : Request) : bool :=
  match r with
  | GET_patients | GET_patient _
  | GET_doctors | GET_doctor _
  | GET_appointments | GET_appointment _ => true
  | _ => false
  end.

(** The routes declared with [@app.put]. *)
Definition is_put (r : Request) : bool :=
  match r with
  | PUT_patient _ _ | PUT_doctor _ _ | PUT_appointment _ _ => true
  | _ => false
  end.

(* ------------------------------------------------------------------ *)
(** ** Login ([main.py], lines 22 to 38 and 113 to 123) *)

Definition SECRET_KEY : string := "CHANGE_THIS_TO_SOMETHING_RANDOM_AND_LONG".
Definition ALGORITHM : string := "HS256".
Definition ACCESS_TOKEN_EXPIRE_MINUTES : Z := 60.

(** An entry of [FAKE_USERS]: a dict with the keys [username] and
    [password]. *)
Record User := mkUser { username : string; password : string }.

Definition FAKE_USERS : list (string * User) :=
  [("admin", mkUser "admin" "admin123")].

(** [d.get(k)] on a dict kept as the list of its items. *)
Fixpoint dict_get {V} (d : list (string * V)) (k : string) : option V :=
  match d with
  | [] => None
  | (k', v) :: d => if String.eqb k' k then Some v else dict_get d k
  end.

(** [d.update({k: v})]: the value of an existing key is replaced in place,
    a new key goes last. *)
Fixpoint dict_update {V} (d : list (string * V)) (k : string) (v : V)
  : list (string * V) :=
  match d with
  | [] => [(k, v)]
  | (k', v') :: d =>
      if String.eqb k' k then (k, v) :: d else (k', v') :: dict_update d k v
  end.

(** The values of the claims that [create_access_token] signs: a string, or
    a point in time, in seconds. *)
Inductive claim :=
| Str (s : string)
| Datetime (seconds : Z).

(** [timedelta(minutes=m)], in seconds. *)
Definition timedelta_minutes (m : Z) : Z := 60 * m.

Section Login.
(** [jwt.encode(claims, key, algorithm)] of the jose library, and the value
    of [datetime.utcnow()] at the call, are taken as given. *)
Variable jwt_encode : list (string * claim) -> string -> string -> string.
Variable utcnow : Z.

Definition create_access_token (data : list (string * claim))
  (expires_delta : Z) : string :=
  let to_encode := data in
  let expire := utcnow + expires_delta in
  let to_encode := dict_update to_encode "exp" (Datetime expire) in
  jwt_encode to_encode SECRET_KEY ALGORITHM.

(** [form_data] carries the submitted [username] and [password]. *)
Definition login_for_access_token (form_username form_password : string)
  : Result (list (string * string)) :=
  match dict_get FAKE_USERS form_username with
  | None =>
      Raise (HTTPException 401 "Incorrect username or password")
  | Some user =>
      if negb (String.eqb (password user) form_password)
      then Raise (HTTPException 401 "Incorrect username or password")
      else
        let access_token :=
          create_access_token [("sub", Str (username user))]
            (timedelta_minutes ACCESS_TOKEN_EXPIRE_MINUTES) in
        Ok [("access_token", access_token); ("token_type", "bearer")]
  end.
End Login.

(* ------------------------------------------------------------------ *)
(** ** Commits that the store refuses *)

(** The handlers above run on a store that accepts every [db.commit()].
    Here the answer of the store to a commit is given: a refused commit
    raises and writes nothing, and what earlier commits of the same handler
    wrote stays written. *)
Inductive commit := Accepted | Refused.

Definition on_commit {A} (c : commit) (write : Handler A) : Handler A :=
  match c with
  | Accepted => write
  | Refused => raise OperationalError
  end.

(** [create_appointment], lines 224 to 240, with the answers of the store to
    its two commits (lines 233 and 238). *)
Definition create_appointment_on (commit_233 commit_238 : commit)
  (payload : AppointmentCreate.t) : Handler Appointment.t :=
  p <- query_first patients Patient.id
         (AppointmentCreate.patient_id payload) ;;
  match p with
  | None => raise (not_found "Patient not found")
  | Some _ =>
      d <- query_first doctors Doctor.id
             (AppointmentCreate.doctor_id payload) ;;
      match d with
      | None => raise (not_found "Doctor not found")
      | Some _ =>
          appt <- on_commit commit_233 (add_commit_appointment payload 0) ;;
          appt <- refresh appointments Appointment.id appt ;;
          let appt :=
            Appointment.set_token_number appt (Appointment.id appt) in
          on_commit commit_238 (commit_appointment appt) ;;
          refresh appointments Appointment.id appt
      end
  end.

(** The integers an [Integer] column of [models.py] holds on the store the
    application runs on: signed, 64 bits.  [age] is the one integer of a
    payload that a handler writes without having looked it up; [Field(ge=0)]
    bounds it below only. *)
Definition integer_column (v : Z) : bool :=
  (- 2 ^ 63 <=? v) && (v <? 2 ^ 63).

(* ------------------------------------------------------------------ *)
(** ** Queries and writes on one table *)

Lemma generate_id_above ids i : In i ids -> i < generate_id ids.
Proof.
  unfold generate_id.
  induction ids as [|j ids IH]; cbn [fold_right In]; [tauto|].
  intros [->|Hin]; [lia | specialize (IH Hin); lia].
Qed.

Lemma generate_id_positive ids : 0 < generate_id ids.
Proof.
  unfold generate_id. induction ids as [|j ids IH]; cbn [fold_right]; lia.
Qed.

Lemma in_delete_where {R} (col : R -> Z) y rows (r : R) :
  In r (delete_where col y rows) <-> In r rows /\ col r <> y.
Proof.
  unfold delete_where. rewrite filter_In.
  destruct (Z.eqb_spec (col r) y); simpl; intuition congruence.
Qed.

Section Table.
Context {R : Type}.
Variable key : R -> Z.

Lemma first_Some x rows r :
  first key x rows = Some r -> In r rows /\ key r = x.
Proof.
  unfold first. intros H. apply find_some in H.
  destruct H as [Hin Heq]. split; [assumption | lia].
Qed.

Lemma first_None x rows :
  first key x rows = None <-> (forall r, In r rows -> key r <> x).
Proof.
  unfold first. split.
  - intros H r Hin Heq.
    pose proof (find_none _ _ H r Hin) as Hn. simpl in Hn. lia.
  - induction rows as [|a rows IH]; simpl; intros H; [reflexivity|].
    destruct (Z.eqb_spec (key a) x) as [Heq|Hne].
    + exfalso. apply (H a); auto.
    + apply IH. intros r Hin. apply H. auto.
Qed.

Lemma first_app x rows rows' :
  first key x (rows ++ rows') =
  match first key x rows with
  | Some r => Some r
  | None => first key x rows'
  end.
Proof.
  unfold first. induction rows as [|a rows IH]; simpl; [reflexivity|].
  destruct (key a =? x); [reflexivity | apply IH].
Qed.

Lemma first_update_row x obj rows :
  first key x (update_row key obj rows) =
  if x =? key obj
  then match first key x rows with Some _ => Some obj | None => None end
  else first key x rows.
Proof.
  unfold first, update_row.
  induction rows as [|a rows IH]; simpl.
  - destruct (x =? key obj); reflexivity.
  - rewrite IH.
    destruct (Z.eqb_spec (key a) (key obj)) as [Ha|Ha];
      destruct (Z.eqb_spec x (key obj)) as [Hx|Hx];
      try destruct (Z.eqb_spec (key obj) x);
      try destruct (Z.eqb_spec (key a) x);
      try reflexivity; lia.
Qed.

Lemma first_delete_where x y rows :
  first key x (delete_where key y rows) =
  if x =? y then None else first key x rows.
Proof.
  unfold first, delete_where.
  induction rows as [|a rows IH]; simpl.
  - destruct (x =? y); reflexivity.
  - destruct (Z.eqb_spec (key a) y) as [Ha|Ha]; simpl.
    + rewrite IH. destruct (Z.eqb_spec x y) as [Hx|Hx]; [reflexivity|].
      rewrite (proj2 (Z.eqb_neq (key a) x)) by lia. reflexivity.
    + rewrite IH. destruct (Z.eqb_spec x y) as [Hx|Hx].
      * rewrite (proj2 (Z.eqb_neq (key a) x)) by lia. reflexivity.
      * reflexivity.
Qed.

Lemma update_row_absent obj rows :
  (forall r, In r rows -> key r <> key obj) ->
  update_row key obj rows = rows.
Proof.
  unfold update_row. induction rows as [|a rows IH]; simpl; intros H.
  - reflexivity.
  - rewrite (proj2 (Z.eqb_neq (key a) (key obj))) by (apply H; auto).
    f_equal. apply IH. intros r Hin. apply H. auto.
Qed.

Lemma update_row_last obj a rows :
  (forall r, In r rows -> key r <> key obj) ->
  key a = key obj ->
  update_row key obj (rows ++ [a]) = rows ++ [obj].
Proof.
  intros Hrows Ha. unfold update_row. rewrite map_app.
  fold (update_row key obj rows). rewrite update_row_absent by assumption.
  simpl. rewrite (proj2 (Z.eqb_eq (key a) (key obj))) by assumption.
  reflexivity.
Qed.

Lemma map_key_update_row obj rows :
  map key (update_row key obj rows) = map key rows.
Proof.
  unfold update_row. rewrite map_map. apply map_ext.
  intros r. destruct (Z.eqb_spec (key r) (key obj)); congruence.
Qed.

Lemma in_update_row obj rows r :
  In r (update_row key obj rows) ->
  r = obj \/ In r rows.
Proof.
  unfold update_row. rewrite in_map_iff. intros [r0 [Heq Hin]].
  destruct (key r0 =? key obj); subst; auto.
Qed.

Lemma generate_id_fresh rows r :
  In r rows -> key r <> generate_id (map key rows).
Proof.
  intros Hin Heq.
  pose proof (generate_id_above (map key rows) (key r) (in_map key _ _ Hin)).
  lia.
Qed.

Lemma NoDup_generate_id rows a :
  key a = generate_id (map key rows) ->
  NoDup (map key rows) -> NoDup (map key (rows ++ [a])).
Proof.
  intros Ha Hnd. rewrite map_app. simpl.
  apply NoDup_app; [assumption | repeat constructor; simpl; tauto |].
  intros x Hx [<-|[]]. apply in_map_iff in Hx. destruct Hx as [r [Hr Hin]].
  apply (generate_id_fresh rows r Hin). congruence.
Qed.

Lemma NoDup_delete_where (col : R -> Z) y rows :
  NoDup (map key rows) -> NoDup (map key (delete_where col y rows)).
Proof.
  unfold delete_where. induction rows as [|a rows IH]; simpl; intros Hnd.
  - constructor.
  - inversion Hnd as [|? ? Hnotin Hnd']; subst.
    destruct (negb (col a =? y)); simpl; [|auto].
    constructor; [|auto].
    intros Hin. apply Hnotin. apply in_map_iff in Hin.
    destruct Hin as [r [Hr Hin]]. apply filter_In in Hin.
    apply in_map_iff. exists r. tauto.
Qed.

(** With unique ids, a row of the table is the one its id finds. *)
Lemma first_In rows r :
  NoDup (map key rows) -> In r rows -> first key (key r) rows = Some r.
Proof.
  unfold first. induction rows as [|a rows IH]; simpl; intros Hnd Hin.
  - contradiction.
  - inversion Hnd as [|? ? Hnotin Hnd']; subst.
    destruct Hin as [->|Hin]; [rewrite Z.eqb_refl; reflexivity|].
    destruct (Z.eqb_spec (key a) (key r)) as [Heq|Hne]; [|auto].
    exfalso. apply Hnotin. rewrite Heq. apply in_map. assumption.
Qed.
End Table.

(* ------------------------------------------------------------------ *)
(** ** What each handler returns and leaves behind *)

Lemma refresh_inserted {R} (table : Database -> list R) (key : R -> Z)
  (a : R) (db : Database) (rows : list R) :
  table db = rows ++ [a] ->
  key a = generate_id (map key rows) ->
  refresh table key a db = (Ok a, db).
Proof.
  intros Htable Hkey. unfold refresh. rewrite Htable, first_app.
  rewrite (proj2 (first_None key (key a) rows)).
  - unfold first. simpl. rewrite Z.eqb_refl. reflexivity.
  - intros r Hin. rewrite Hkey. apply generate_id_fresh. assumption.
Qed.

Lemma refresh_updated {R} (table : Database -> list R) (key : R -> Z)
  (obj old : R) (db : Database) (rows : list R) :
  table db = update_row key obj rows ->
  first key (key obj) rows = Some old ->
  refresh table key obj db = (Ok obj, db).
Proof.
  intros Htable Hold. unfold refresh.
  rewrite Htable, first_update_row, Z.eqb_refl, Hold. reflexivity.
Qed.

Lemma create_patient_eq payload db :
  exists p,
    create_patient payload db = (Ok p, with_patients db (patients db ++ [p]))
    /\ Patient.id p = generate_id (map Patient.id (patients db)).
Proof.
  eexists. unfold create_patient, bind, add_commit_patient. split.
  - erewrite refresh_inserted; reflexivity.
  - reflexivity.
Qed.

Lemma create_doctor_eq payload db :
  exists d,
    create_doctor payload db = (Ok d, with_doctors db (doctors db ++ [d]))
    /\ Doctor.id d = generate_id (map Doctor.id (doctors db)).
Proof.
  eexists. unfold create_doctor, bind, add_commit_doctor. split.
  - erewrite refresh_inserted; reflexivity.
  - reflexivity.
Qed.

Lemma update_patient_eq i payload db :
  match first Patient.id i (patients db) with
  | None =>
      update_patient i payload db =
      (Raise (not_found "Patient not found"), db)
  | Some p =>
      update_patient i payload db =
      (Ok (setattr_patient p payload),
       with_patients db
         (update_row Patient.id (setattr_patient p payload) (patients db)))
  end.
Proof.
  unfold update_patient, bind, query_first.
  destruct (first Patient.id i (patients db)) as [p|] eqn:Hp; [|reflexivity].
  unfold commit_patient.
  erewrite refresh_updated; [reflexivity | reflexivity |].
  apply first_Some in Hp as Hid. destruct Hid as [_ <-]. simpl.
  eassumption.
Qed.

Lemma update_doctor_eq i payload db :
  match first Doctor.id i (doctors db) with
  | None =>
      update_doctor i payload db =
      (Raise (not_found "Doctor not found"), db)
  | Some d =>
      update_doctor i payload db =
      (Ok (setattr_doctor d payload),
       with_doctors db
         (update_row Doctor.id (setattr_doctor d payload) (doctors db)))
  end.
Proof.
  unfold update_doctor, bind, query_first.
  destruct (first Doctor.id i (doctors db)) as [d|] eqn:Hd; [|reflexivity].
  unfold commit_doctor.
  erewrite refresh_updated; [reflexivity | reflexivity |].
  apply first_Some in Hd as Hid. destruct Hid as [_ <-]. simpl.
  eassumption.
Qed.

Lemma delete_patient_eq i db :
  match first Patient.id i (patients db) with
  | None =>
      delete_patient i db = (Raise (not_found "Patient not found"), db)
  | Some _ =>
      delete_patient i db =
      (Ok [("detail", "Patient deleted")],
       mkDatabase (delete_where Patient.id i (patients db))
         (doctors db)
         (delete_where Appointment.patient_id i (appointments db)))
  end.
Proof.
  unfold delete_patient, bind, query_first.
  destruct (first Patient.id i (patients db)) as [p|] eqn:Hp; [|reflexivity].
  apply first_Some in Hp. destruct Hp as [_ <-]. reflexivity.
Qed.

Lemma delete_doctor_eq i db :
  match first Doctor.id i (doctors db) with
  | None =>
      delete_doctor i db = (Raise (not_found "Doctor not found"), db)
  | Some _ =>
      delete_doctor i db =
      (Ok [("detail", "Doctor deleted")],
       mkDatabase (patients db)
         (delete_where Doctor.id i (doctors db))
         (delete_where Appointment.doctor_id i (appointments db)))
  end.
Proof.
  unfold delete_doctor, bind, query_first.
  destruct (first Doctor.id i (doctors db)) as [d|] eqn:Hd; [|reflexivity].
  apply first_Some in Hd. destruct Hd as [_ <-]. reflexivity.
Qed.

Lemma create_appointment_insert_ok payload db p d :
  first Patient.id (AppointmentCreate.patient_id payload) (patients db)
    = Some p ->
  first Doctor.id (AppointmentCreate.doctor_id payload) (doctors db)
    = Some d ->
  let a := Appointment.mk
             (generate_id (map Appointment.id (appointments db)))
             (AppointmentCreate.patient_id payload)
             (AppointmentCreate.doctor_id payload)
             (AppointmentCreate.date payload)
             (AppointmentCreate.time payload) 0 in
  create_appointment_insert payload db =
  (Ok a, with_appointments db (appointments db ++ [a])).
Proof.
  intros Hp Hd a.
  unfold create_appointment_insert, bind, query_first. rewrite Hp, Hd.
  unfold add_commit_appointment. fold a.
  erewrite refresh_inserted; reflexivity.
Qed.

Lemma create_appointment_ok payload db p d :
  first Patient.id (AppointmentCreate.patient_id payload) (patients db)
    = Some p ->
  first Doctor.id (AppointmentCreate.doctor_id payload) (doctors db)
    = Some d ->
  let i := generate_id (map Appointment.id (appointments db)) in
  let a := Appointment.mk i
             (AppointmentCreate.patient_id payload)
             (AppointmentCreate.doctor_id payload)
             (AppointmentCreate.date payload)
             (AppointmentCreate.time payload) i in
  create_appointment payload db =
  (Ok a, with_appointments db (appointments db ++ [a])).
Proof.
  intros Hp Hd i a. unfold create_appointment, bind.
  rewrite (create_appointment_insert_ok payload db p d Hp Hd).
  unfold create_appointment_assign, bind, commit_appointment.
  cbn [Appointment.id Appointment.set_token_number Appointment.patient_id
       Appointment.doctor_id Appointment.date Appointment.time
       with_appointments appointments patients doctors].
  fold i. fold a.
  assert (Hrows : forall r, In r (appointments db) ->
                            Appointment.id r <> Appointment.id a).
  { intros r Hin. apply generate_id_fresh. assumption. }
  rewrite (update_row_last Appointment.id a _ (appointments db) Hrows)
    by reflexivity.
  erewrite refresh_inserted; reflexivity.
Qed.

Lemma create_appointment_no_patient payload db :
  first Patient.id (AppointmentCreate.patient_id payload) (patients db)
    = None ->
  create_appointment payload db =
  (Raise (not_found "Patient not found"), db).
Proof.
  intros Hp.
  unfold create_appointment, create_appointment_insert, bind, query_first.
  rewrite Hp. reflexivity.
Qed.

Lemma create_appointment_no_doctor payload db p :
  first Patient.id (AppointmentCreate.patient_id payload) (patients db)
    = Some p ->
  first Doctor.id (AppointmentCreate.doctor_id payload) (doctors db)
    = None ->
  create_appointment payload db =
  (Raise (not_found "Doctor not found"), db).
Proof.
  intros Hp Hd.
  unfold create_appointment, create_appointment_insert, bind, query_first.
  rewrite Hp, Hd. reflexivity.
Qed.

Lemma update_appointment_ok i payload db old p d :
  first Appointment.id i (appointments db) = Some old ->
  first Patient.id (AppointmentCreate.patient_id payload) (patients db)
    = Some p ->
  first Doctor.id (AppointmentCreate.doctor_id payload) (doctors db)
    = Some d ->
  update_appointment i payload db =
  (Ok (setattr_appointment old payload),
   with_appointments db
     (update_row Appointment.id (setattr_appointment old payload)
        (appointments db))).
Proof.
  intros Ha Hp Hd. unfold update_appointment, bind, query_first.
  rewrite Ha, Hp, Hd. unfold commit_appointment.
  erewrite refresh_updated; [reflexivity | reflexivity |].
  apply first_Some in Ha as Hold. destruct Hold as [_ <-]. simpl.
  eassumption.
Qed.

Lemma delete_appointment_eq i db :
  match first Appointment.id i (appointments db) with
  | None =>
      delete_appointment i db =
      (Raise (not_found "Appointment not found"), db)
  | Some _ =>
      delete_appointment i db =
      (Ok [("detail", "Appointment deleted")],
       with_appointments db
         (delete_where Appointment.id i (appointments db)))
  end.
Proof.
  unfold delete_appointment, bind, query_first.
  destruct (first Appointment.id i (appointments db)) as [a|] eqn:Ha;
    [|reflexivity].
  apply first_Some in Ha. destruct Ha as [_ <-]. reflexivity.
Qed.

Lemma get_appointment_eq i db :
  get_appointment i db =
  match first Appointment.id i (appointments db) with
  | None => (Raise (not_found "Appointment not found"), db)
  | Some a => (Ok a, db)
  end.
Proof.
  unfold get_appointment, bind, query_first.
  destruct (first Appointment.id i (appointments db)); reflexivity.
Qed.

(* ------------------------------------------------------------------ *)
(** ** Invariants of the reachable databases *)

Lemma first_app_not_None {R} (key : R -> Z) x rows rows' :
  first key x rows <> None -> first key x (rows ++ rows') <> None.
Proof.
  rewrite first_app. destruct (first key x rows); congruence.
Qed.

Lemma first_update_row_not_None {R} (key : R -> Z) x obj rows :
  first key x rows <> None -> first key x (update_row key obj rows) <> None.
Proof.
  rewrite first_update_row.
  destruct (x =? key obj), (first key x rows); congruence.
Qed.

Lemma invariant_empty : invariant empty_db.
Proof.
  split.
  - repeat split; constructor.
  - intros a [].
  - intros a [].
Qed.

Lemma invariant_add_patient db p :
  invariant db ->
  Patient.id p = generate_id (map Patient.id (patients db)) ->
  invariant (with_patients db (patients db ++ [p])).
Proof.
  intros [[Hp [Hd Ha]] Hc Hr] Hid. split.
  - repeat split; db_simpl; auto using NoDup_generate_id.
  - exact Hc.
  - intros a Hin. destruct (Hr a Hin) as [H1 H2]. split; db_simpl.
    + apply first_app_not_None. assumption.
    + assumption.
Qed.

Lemma invariant_add_doctor db d :
  invariant db ->
  Doctor.id d = generate_id (map Doctor.id (doctors db)) ->
  invariant (with_doctors db (doctors db ++ [d])).
Proof.
  intros [[Hp [Hd Ha]] Hc Hr] Hid. split.
  - repeat split; db_simpl; auto using NoDup_generate_id.
  - exact Hc.
  - intros a Hin. destruct (Hr a Hin) as [H1 H2]. split; db_simpl.
    + assumption.
    + apply first_app_not_None. assumption.
Qed.

Lemma invariant_update_patient db obj :
  invariant db ->
  invariant (with_patients db (update_row Patient.id obj (patients db))).
Proof.
  intros [[Hp [Hd Ha]] Hc Hr]. split.
  - repeat split; db_simpl; auto. rewrite map_key_update_row. assumption.
  - exact Hc.
  - intros a Hin. destruct (Hr a Hin) as [H1 H2]. split; db_simpl.
    + apply first_update_row_not_None. assumption.
    + assumption.
Qed.

Lemma invariant_update_doctor db obj :
  invariant db ->
  invariant (with_doctors db (update_row Doctor.id obj (doctors db))).
Proof.
  intros [[Hp [Hd Ha]] Hc Hr]. split.
  - repeat split; db_simpl; auto. rewrite map_key_update_row. assumption.
  - exact Hc.
  - intros a Hin. destruct (Hr a Hin) as [H1 H2]. split; db_simpl.
    + assumption.
    + apply first_update_row_not_None. assumption.
Qed.

Lemma invariant_delete_patient db i :
  invariant db ->
  invariant
    (mkDatabase (delete_where Patient.id i (patients db)) (doctors db)
       (delete_where Appointment.patient_id i (appointments db))).
Proof.
  intros [[Hp [Hd Ha]] Hc Hr]. split.
  - repeat split; db_simpl; auto using NoDup_delete_where.
  - db_simpl. intros a Hin. apply in_delete_where in Hin. apply Hc, Hin.
  - db_simpl. intros a Hin. apply in_delete_where in Hin.
    destruct Hin as [Hin Hne]. destruct (Hr a Hin) as [H1 H2].
    split; db_simpl; [|assumption].
    rewrite first_delete_where.
    rewrite (proj2 (Z.eqb_neq _ _) Hne). assumption.
Qed.

Lemma invariant_delete_doctor db i :
  invariant db ->
  invariant
    (mkDatabase (patients db) (delete_where Doctor.id i (doctors db))
       (delete_where Appointment.doctor_id i (appointments db))).
Proof.
  intros [[Hp [Hd Ha]] Hc Hr]. split.
  - repeat split; db_simpl; auto using NoDup_delete_where.
  - db_simpl. intros a Hin. apply in_delete_where in Hin. apply Hc, Hin.
  - db_simpl. intros a Hin. apply in_delete_where in Hin.
    destruct Hin as [Hin Hne]. destruct (Hr a Hin) as [H1 H2].
    split; db_simpl; [assumption|].
    rewrite first_delete_where.
    rewrite (proj2 (Z.eqb_neq _ _) Hne). assumption.
Qed.

Lemma invariant_add_appointment db a :
  invariant db ->
  Appointment.id a = generate_id (map Appointment.id (appointments db)) ->
  confirmed a -> referenced db a ->
  invariant (with_appointments db (appointments db ++ [a])).
Proof.
  intros [[Hp [Hd Ha]] Hc Hr] Hid Hca Hra. split.
  - repeat split; db_simpl; auto using NoDup_generate_id.
  - db_simpl. intros r Hin. apply in_app_or in Hin.
    destruct Hin as [Hin|[<-|[]]]; auto.
  - db_simpl. intros r Hin. apply in_app_or in Hin.
    destruct Hin as [Hin|[<-|[]]]; [apply (Hr r Hin) | exact Hra].
Qed.

Lemma invariant_update_appointment db obj :
  invariant db ->
  confirmed obj -> referenced db obj ->
  invariant
    (with_appointments db (update_row Appointment.id obj (appointments db))).
Proof.
  intros [[Hp [Hd Ha]] Hc Hr] Hco Hro. split.
  - repeat split; db_simpl; auto. rewrite map_key_update_row. assumption.
  - db_simpl. intros r Hin. apply in_update_row in Hin.
    destruct Hin as [->|Hin]; auto.
  - db_simpl. intros r Hin. apply in_update_row in Hin.
    destruct Hin as [->|Hin]; [exact Hro | apply (Hr r Hin)].
Qed.

Lemma invariant_delete_appointment db i :
  invariant db ->
  invariant
    (with_appointments db (delete_where Appointment.id i (appointments db))).
Proof.
  intros [[Hp [Hd Ha]] Hc Hr]. split.
  - repeat split; db_simpl; auto using NoDup_delete_where.
  - db_simpl. intros a Hin. apply in_delete_where in Hin. apply Hc, Hin.
  - db_simpl. intros a Hin. apply in_delete_where in Hin. apply (Hr a), Hin.
Qed.

Lemma serve_invariant r db : invariant db -> invariant (serve r db).
Proof.
  intros Hinv. destruct r as
    [payload| |i|i payload|i|payload| |i|i payload|i|payload| |i|i payload|i];
    cbn [serve].
  - destruct (create_patient_eq payload db) as [p [-> Hid]].
    apply invariant_add_patient; assumption.
  - exact Hinv.
  - unfold get_patient, bind, query_first.
    destruct (first Patient.id i (patients db)); exact Hinv.
  - pose proof (update_patient_eq i payload db) as H.
    destruct (first Patient.id i (patients db)); rewrite H; db_simpl.
    + apply invariant_update_patient. assumption.
    + exact Hinv.
  - pose proof (delete_patient_eq i db) as H.
    destruct (first Patient.id i (patients db)); rewrite H; db_simpl.
    + apply invariant_delete_patient. assumption.
    + exact Hinv.
  - destruct (create_doctor_eq payload db) as [d [-> Hid]].
    apply invariant_add_doctor; assumption.
  - exact Hinv.
  - unfold get_doctor, bind, query_first.
    destruct (first Doctor.id i (doctors db)); exact Hinv.
  - pose proof (update_doctor_eq i payload db) as H.
    destruct (first Doctor.id i (doctors db)); rewrite H; db_simpl.
    + apply invariant_update_doctor. assumption.
    + exact Hinv.
  - pose proof (delete_doctor_eq i db) as H.
    destruct (first Doctor.id i (doctors db)); rewrite H; db_simpl.
    + apply invariant_delete_doctor. assumption.
    + exact Hinv.
  - destruct (first Patient.id (AppointmentCreate.patient_id payload)
                (patients db)) as [p|] eqn:Hp.
    + destruct (first Doctor.id (AppointmentCreate.doctor_id payload)
                  (doctors db)) as [d|] eqn:Hd.
      * rewrite (create_appointment_ok payload db p d Hp Hd). db_simpl.
        apply invariant_add_appointment; try assumption; try reflexivity.
        unfold referenced. simpl. split; congruence.
      * rewrite (create_appointment_no_doctor payload db p Hp Hd).
        exact Hinv.
    + rewrite (create_appointment_no_patient payload db Hp). exact Hinv.
  - exact Hinv.
  - rewrite get_appointment_eq.
    destruct (first Appointment.id i (appointments db)); exact Hinv.
  - destruct (first Appointment.id i (appointments db)) as [old|] eqn:Ha.
    + destruct (first Patient.id (AppointmentCreate.patient_id payload)
                  (patients db)) as [p|] eqn:Hp.
      * destruct (first Doctor.id (AppointmentCreate.doctor_id payload)
                    (doctors db)) as [d|] eqn:Hd.
        -- rewrite (update_appointment_ok i payload db old p d Ha Hp Hd).
           db_simpl. apply invariant_update_appointment; try assumption.
           ++ apply first_Some in Ha. destruct Ha as [Hin _].
              apply (inv_confirmed db Hinv) in Hin. exact Hin.
           ++ unfold referenced. simpl. split; congruence.
        -- unfold update_appointment, bind, query_first.
           rewrite Ha, Hp, Hd. exact Hinv.
      * unfold update_appointment, bind, query_first.
        rewrite Ha, Hp. exact Hinv.
    + unfold update_appointment, bind, query_first. rewrite Ha. exact Hinv.
  - pose proof (delete_appointment_eq i db) as H.
    destruct (first Appointment.id i (appointments db)); rewrite H; db_simpl.
    + apply invariant_delete_appointment. assumption.
    + exact Hinv.
Qed.

Lemma reachable_invariant db : reachable db -> invariant db.
Proof.
  induction 1 as [|r db Hreach IH].
  - exact invariant_empty.
  - apply serve_invariant. exact IH.
Qed.

(* ------------------------------------------------------------------ *)
(** ** Existence of a row, and what [first] finds *)

Lemma first_exists {R} (key : R -> Z) x rows :
  (exists r, In r rows /\ key r = x) <-> first key x rows <> None.
Proof.
  split.
  - intros [r [Hin Hkey]] Hnone.
    apply (proj1 (first_None key x rows) Hnone r Hin Hkey).
  - destruct (first key x rows) as [r|] eqn:Hr; [|congruence].
    intros _. exists r. apply (first_Some key). exact Hr.
Qed.

Lemma first_missing {R} (key : R -> Z) x rows :
  ~ (exists r, In r rows /\ key r = x) -> first key x rows = None.
Proof.
  intros H. destruct (first key x rows) as [r|] eqn:Hr; [|reflexivity].
  exfalso. apply H. exists r. apply (first_Some key). exact Hr.
Qed.

Lemma first_present {R} (key : R -> Z) x rows :
  (exists r, In r rows /\ key r = x) -> exists r, first key x rows = Some r.
Proof.
  intros H. apply first_exists in H.
  destruct (first key x rows) as [r|]; [eauto | congruence].
Qed.

Lemma reachable_serve_all rs db : reachable db -> reachable (serve_all rs db).
Proof.
  unfold serve_all. revert db.
  induction rs as [|r rs IH]; intros db Hdb; simpl.
  - exact Hdb.
  - apply IH. constructor. exact Hdb.
Qed.

Lemma front_desk_eq :
  front_desk =
  mkDatabase
    [Patient.mk 1 "Jane" "555" 30 "F"]
    [Doctor.mk 1 "Smith" "556" "Cardio"]
    [Appointment.mk 1 1 1 (Date 2024 1 10) (Time 9 0) 1;
     Appointment.mk 2 1 1 (Date 2024 1 11) (Time 10 0) 2].
Proof. reflexivity. Qed.

(* ------------------------------------------------------------------ *)
(** ** Booking *)

(** C1. In every database that holds a patient with the payload's
    [patient_id] and a doctor with its [doctor_id], [create_appointment]
    returns an appointment whose [token_number] is its own generated id, and
    [get_appointment] of that id, run on the database the booking left,
    returns an appointment with the same [token_number]. *)
Theorem create_appointment_token_is_id db payload :
  patient_exists db (AppointmentCreate.patient_id payload) ->
  doctor_exists db (AppointmentCreate.doctor_id payload) ->
  exists appt db',
    create_appointment payload db = (Ok appt, db') /\
    Appointment.token_number appt = Appointment.id appt /\
    exists appt',
      get_appointment (Appointment.id appt) db' = (Ok appt', db') /\
      Appointment.token_number appt' = Appointment.token_number appt.
Proof.
  intros Hp Hd.
  apply first_present in Hp. destruct Hp as [p Hp].
  apply first_present in Hd. destruct Hd as [d Hd].
  pose proof (create_appointment_ok payload db p d Hp Hd) as Hbook.
  cbv zeta in Hbook.
  eexists. eexists. split; [exact Hbook|]. split; [reflexivity|].
  eexists. split; [|reflexivity].
  rewrite get_appointment_eq. db_simpl. rewrite first_app.
  rewrite (proj2 (first_None Appointment.id _ (appointments db))).
  - unfold first. simpl. rewrite Z.eqb_refl. reflexivity.
  - intros r Hin. simpl. apply generate_id_fresh. exact Hin.
Qed.

Lemma create_appointment_token_is_id_witness :
  patient_exists front_desk 1 /\
  doctor_exists front_desk 1 /\
  exists appt db',
    create_appointment visit2 front_desk = (Ok appt, db') /\
    Appointment.token_number appt = Appointment.id appt /\
    exists appt',
      get_appointment (Appointment.id appt) db' = (Ok appt', db') /\
      Appointment.token_number appt' = Appointment.token_number appt.
Proof.
  assert (Hp : patient_exists front_desk 1).
  { exists (Patient.mk 1 "Jane" "555" 30 "F"). split; [left|]; reflexivity. }
  assert (Hd : doctor_exists front_desk 1).
  { exists (Doctor.mk 1 "Smith" "556" "Cardio").
    split; [left|]; reflexivity. }
  split; [exact Hp|]. split; [exact Hd|].
  exact (create_appointment_token_is_id front_desk visit2 Hp Hd).
Defined.

(** C2. In every database that a sequence of completed requests produces
    from the empty one, each request served as one step, every stored
    appointment has [token_number] equal to its own id; so whatever
    [get_appointment] and [list_appointments] return has it too, and once
    [create_appointment] has returned an appointment, no later
    [get_appointment] of its id, after any further requests, returns a
    [token_number] other than the id. *)
Theorem reachable_token_number_is_id db :
  reachable db ->
  (forall a, In a (appointments db) ->
             Appointment.token_number a = Appointment.id a) /\
  (forall i a, fst (get_appointment i db) = Ok a ->
               Appointment.token_number a = Appointment.id a) /\
  (forall l, fst (list_appointments db) = Ok l ->
             Forall (fun a => Appointment.token_number a = Appointment.id a)
               l) /\
  (forall payload appt db' rs a,
      create_appointment payload db = (Ok appt, db') ->
      fst (get_appointment (Appointment.id appt) (serve_all rs db')) = Ok a ->
      Appointment.token_number a = Appointment.id appt).
Proof.
  intros Hreach.
  assert (Hget : forall s, reachable s -> forall i a,
             fst (get_appointment i s) = Ok a ->
             In a (appointments s) /\ Appointment.id a = i /\
             Appointment.token_number a = Appointment.id a).
  { intros s Hs i a. rewrite get_appointment_eq.
    destruct (first Appointment.id i (appointments s)) as [r|] eqn:Hr;
      simpl; [|discriminate].
    intros Heq. injection Heq as ->.
    apply first_Some in Hr. destruct Hr as [Hin Hid].
    repeat split; try assumption.
    apply (inv_confirmed s (reachable_invariant s Hs) a Hin). }
  split; [|split; [|split]].
  - apply (inv_confirmed db (reachable_invariant db Hreach)).
  - intros i a Ha. apply (Hget db Hreach i a Ha).
  - intros l Hl. unfold list_appointments, query_all in Hl. simpl in Hl.
    injection Hl as <-. apply Forall_forall.
    apply (inv_confirmed db (reachable_invariant db Hreach)).
  - intros payload appt db' rs a Hbook Ha.
    assert (Hdb' : reachable db').
    { replace db' with (serve (POST_appointments payload) db)
        by (simpl; rewrite Hbook; reflexivity).
      constructor. exact Hreach. }
    destruct (Hget _ (reachable_serve_all rs db' Hdb') _ _ Ha)
      as [_ [Hid Htok]].
    congruence.
Qed.

Lemma reachable_token_number_is_id_witness :
  reachable front_desk /\
  In (Appointment.mk 2 1 1 (Date 2024 1 11) (Time 10 0) 2)
    (appointments front_desk) /\
  Appointment.token_number
    (Appointment.mk 2 1 1 (Date 2024 1 11) (Time 10 0) 2) = 2.
Proof.
  assert (Hreach : reachable front_desk).
  { unfold front_desk, serve_all. cbn [fold_left].
    repeat apply reachable_serve. exact reachable_empty. }
  assert (Hin : In (Appointment.mk 2 1 1 (Date 2024 1 11) (Time 10 0) 2)
                  (appointments front_desk)).
  { right. left. reflexivity. }
  split; [exact Hreach|]. split; [exact Hin|].
  exact (proj1 (reachable_token_number_is_id front_desk Hreach) _ Hin).
Defined.

(** On a store that accepts both commits, [create_appointment] either
    returns a confirmed appointment ([token_number] equal to id) that is the
    one row added to the appointments, or raises and leaves the database
    exactly as it was; when the patient or the doctor is missing it raises a
    404 and nothing is stored. *)
Theorem create_appointment_all_or_nothing db payload :
  ((exists appt,
       create_appointment payload db =
       (Ok appt, with_appointments db (appointments db ++ [appt])) /\
       Appointment.token_number appt = Appointment.id appt)
   \/
   (exists e, create_appointment payload db = (Raise e, db)))
  /\
  (~ patient_exists db (AppointmentCreate.patient_id payload) \/
   ~ doctor_exists db (AppointmentCreate.doctor_id payload) ->
   exists detail,
     create_appointment payload db = (Raise (HTTPException 404 detail), db)).
Proof.
  destruct (first Patient.id (AppointmentCreate.patient_id payload)
              (patients db)) as [p|] eqn:Hp.
  - destruct (first Doctor.id (AppointmentCreate.doctor_id payload)
                (doctors db)) as [d|] eqn:Hd.
    + pose proof (create_appointment_ok payload db p d Hp Hd) as Hbook.
      cbv zeta in Hbook. split.
      * left. eexists. split; [exact Hbook | reflexivity].
      * intros [Hno|Hno]; exfalso; apply Hno.
        -- exists p. apply (first_Some Patient.id). exact Hp.
        -- exists d. apply (first_Some Doctor.id). exact Hd.
    + pose proof (create_appointment_no_doctor payload db p Hp Hd) as Hbook.
      split; [right|intros _]; eexists; exact Hbook.
  - pose proof (create_appointment_no_patient payload db Hp) as Hbook.
    split; [right|intros _]; eexists; exact Hbook.
Qed.

Lemma create_appointment_all_or_nothing_witness :
  (~ patient_exists front_desk 99 \/ ~ doctor_exists front_desk 1) /\
  exists detail,
    create_appointment
      (AppointmentCreate.mk 99 1 (Date 2024 1 12) (Time 11 0)) front_desk =
    (Raise (HTTPException 404 detail), front_desk).
Proof.
  assert (Hno : ~ patient_exists front_desk 99 \/
                ~ doctor_exists front_desk 1).
  { left. intros [p [[<-|[]] Hid]]. discriminate Hid. }
  split; [exact Hno|].
  exact (proj2 (create_appointment_all_or_nothing front_desk
                  (AppointmentCreate.mk 99 1 (Date 2024 1 12) (Time 11 0)))
           Hno).
Defined.

(** Between its two commits [create_appointment] has stored the row with the
    placeholder: in the database that the first commit leaves, the
    appointment is found under its id with token 0, which is not its id.
    [serve] takes the whole handler as one step, so no request of a sequence
    runs on that database. *)
Remark create_appointment_insert_placeholder db payload :
  patient_exists db (AppointmentCreate.patient_id payload) ->
  doctor_exists db (AppointmentCreate.doctor_id payload) ->
  exists appt db1,
    create_appointment_insert payload db = (Ok appt, db1) /\
    get_appointment (Appointment.id appt) db1 = (Ok appt, db1) /\
    Appointment.token_number appt = 0 /\
    Appointment.token_number appt <> Appointment.id appt.
Proof.
  intros Hp Hd.
  apply first_present in Hp. destruct Hp as [p Hp].
  apply first_present in Hd. destruct Hd as [d Hd].
  pose proof (create_appointment_insert_ok payload db p d Hp Hd) as Hins.
  cbv zeta in Hins.
  eexists. eexists. split; [exact Hins|]. split; [|split].
  - rewrite get_appointment_eq. db_simpl. rewrite first_app.
    rewrite (proj2 (first_None Appointment.id _ (appointments db))).
    + unfold first. simpl. rewrite Z.eqb_refl. reflexivity.
    + intros r Hin. simpl. apply generate_id_fresh. exact Hin.
  - reflexivity.
  - simpl.
    pose proof (generate_id_positive (map Appointment.id (appointments db))).
    lia.
Qed.

Lemma create_appointment_on_accepted payload db :
  create_appointment_on Accepted Accepted payload db =
  create_appointment payload db.
Proof.
  unfold create_appointment_on, create_appointment,
    create_appointment_insert, create_appointment_assign, on_commit,
    bind, query_first.
  destruct (first Patient.id _ (patients db)); [|reflexivity].
  destruct (first Doctor.id _ (doctors db)); [|reflexivity].
  destruct (add_commit_appointment payload 0 db) as [[a|e] db1];
    [|reflexivity].
  destruct (refresh appointments Appointment.id a db1) as [[a'|e] db2];
    reflexivity.
Qed.

Lemma create_appointment_on_refused_238 payload db p d :
  first Patient.id (AppointmentCreate.patient_id payload) (patients db)
    = Some p ->
  first Doctor.id (AppointmentCreate.doctor_id payload) (doctors db)
    = Some d ->
  let a := Appointment.mk
             (generate_id (map Appointment.id (appointments db)))
             (AppointmentCreate.patient_id payload)
             (AppointmentCreate.doctor_id payload)
             (AppointmentCreate.date payload)
             (AppointmentCreate.time payload) 0 in
  create_appointment_on Accepted Refused payload db =
  (Raise OperationalError, with_appointments db (appointments db ++ [a])).
Proof.
  intros Hp Hd a.
  unfold create_appointment_on, on_commit, bind, query_first.
  rewrite Hp, Hd. unfold add_commit_appointment. fold a.
  erewrite refresh_inserted; reflexivity.
Qed.

Lemma create_appointment_on_refused_233 c payload db p d :
  first Patient.id (AppointmentCreate.patient_id payload) (patients db)
    = Some p ->
  first Doctor.id (AppointmentCreate.doctor_id payload) (doctors db)
    = Some d ->
  create_appointment_on Refused c payload db = (Raise OperationalError, db).
Proof.
  intros Hp Hd.
  unfold create_appointment_on, on_commit, bind, query_first.
  rewrite Hp, Hd. reflexivity.
Qed.

Lemma create_appointment_on_not_found c1 c2 payload db :
  first Patient.id (AppointmentCreate.patient_id payload) (patients db)
    = None \/
  first Doctor.id (AppointmentCreate.doctor_id payload) (doctors db)
    = None ->
  exists detail,
    create_appointment_on c1 c2 payload db =
    (Raise (HTTPException 404 detail), db).
Proof.
  unfold create_appointment_on, bind, query_first.
  destruct (first Patient.id _ (patients db)) as [p|];
    [|intros _; eexists; reflexivity].
  destruct (first Doctor.id _ (doctors db)) as [d|];
    [|intros _; eexists; reflexivity].
  intros [H|H]; discriminate H.
Qed.

(** C3, as the code has it.  Whatever the store answers to the two commits
    of [create_appointment]: with the patient or the doctor missing it
    raises a 404 and leaves the database exactly as it was.  With both
    present, it returns a confirmed appointment ([token_number] equal to
    id), the one row added, when both commits are accepted; it raises and
    leaves the database exactly as it was when the first commit is refused;
    and when the second commit is refused it raises and the row that the
    first commit inserted stays, with the placeholder token 0 and not its
    id. *)
Theorem create_appointment_atomic_but_for_second_commit db payload c1 c2 :
  (~ patient_exists db (AppointmentCreate.patient_id payload) \/
   ~ doctor_exists db (AppointmentCreate.doctor_id payload) ->
   exists detail,
     create_appointment_on c1 c2 payload db =
     (Raise (HTTPException 404 detail), db))
  /\
  (patient_exists db (AppointmentCreate.patient_id payload) ->
   doctor_exists db (AppointmentCreate.doctor_id payload) ->
   match c1, c2 with
   | Accepted, Accepted =>
       create_appointment_on c1 c2 payload db =
         create_appointment payload db /\
       exists appt,
         create_appointment payload db =
         (Ok appt, with_appointments db (appointments db ++ [appt])) /\
         Appointment.token_number appt = Appointment.id appt
   | Refused, _ =>
       create_appointment_on c1 c2 payload db = (Raise OperationalError, db)
   | Accepted, Refused =>
       exists appt,
         create_appointment_on c1 c2 payload db =
         (Raise OperationalError,
          with_appointments db (appointments db ++ [appt])) /\
         Appointment.token_number appt = 0 /\
         Appointment.token_number appt <> Appointment.id appt
   end).
Proof.
  split.
  - intros Hno. apply create_appointment_on_not_found.
    destruct Hno as [Hno|Hno]; [left|right]; apply first_missing; exact Hno.
  - intros Hp Hd.
    apply first_present in Hp. destruct Hp as [p Hp].
    apply first_present in Hd. destruct Hd as [d Hd].
    destruct c1; [destruct c2|].
    + split; [apply create_appointment_on_accepted|].
      pose proof (create_appointment_ok payload db p d Hp Hd) as Hbook.
      cbv zeta in Hbook. eexists. split; [exact Hbook | reflexivity].
    + pose proof (create_appointment_on_refused_238 payload db p d Hp Hd)
        as Hrun.
      cbv zeta in Hrun. eexists. split; [exact Hrun|].
      split; [reflexivity|]. cbn [Appointment.token_number Appointment.id].
      pose proof
        (generate_id_positive (map Appointment.id (appointments db))).
      lia.
    + apply (create_appointment_on_refused_233 c2 payload db p d Hp Hd).
Qed.

Lemma create_appointment_atomic_but_for_second_commit_witness :
  ((~ patient_exists front_desk 99 \/ ~ doctor_exists front_desk 1) /\
   exists detail,
     create_appointment_on Accepted Refused
       (AppointmentCreate.mk 99 1 (Date 2024 1 12) (Time 11 0)) front_desk =
     (Raise (HTTPException 404 detail), front_desk))
  /\
  (patient_exists front_desk 1 /\ doctor_exists front_desk 1 /\
   exists appt,
     create_appointment_on Accepted Refused visit2 front_desk =
     (Raise OperationalError,
      with_appointments front_desk (appointments front_desk ++ [appt])) /\
     Appointment.token_number appt = 0 /\
     Appointment.token_number appt <> Appointment.id appt).
Proof.
  assert (Hno : ~ patient_exists front_desk 99 \/
                ~ doctor_exists front_desk 1).
  { left. intros [p [[<-|[]] Hid]]. discriminate Hid. }
  assert (Hp : patient_exists front_desk 1).
  { exists (Patient.mk 1 "Jane" "555" 30 "F"). split; [left|]; reflexivity. }
  assert (Hd : doctor_exists front_desk 1).
  { exists (Doctor.mk 1 "Smith" "556" "Cardio").
    split; [left|]; reflexivity. }
  split.
  - split; [exact Hno|].
    exact (proj1 (create_appointment_atomic_but_for_second_commit front_desk
                    (AppointmentCreate.mk 99 1 (Date 2024 1 12) (Time 11 0))
                    Accepted Refused) Hno).
  - split; [exact Hp|]. split; [exact Hd|].
    exact (proj2 (create_appointment_atomic_but_for_second_commit front_desk
                    visit2 Accepted Refused) Hp Hd).
Defined.

(** C3 as the specification states it fails where the store refuses the
    second commit: the booking of [visit2] at the front desk then neither
    returns a confirmed appointment nor leaves the database as it was;
    appointment 3 is stored, and read back, with token 0. *)
Lemma create_appointment_second_commit_refused_not_atomic :
  ~ ((exists appt db',
         create_appointment_on Accepted Refused visit2 front_desk =
           (Ok appt, db') /\
         Appointment.token_number appt = Appointment.id appt)
     \/
     (exists e,
         create_appointment_on Accepted Refused visit2 front_desk =
         (Raise e, front_desk)))
  /\
  fst (create_appointment_on Accepted Refused visit2 front_desk) =
    Raise OperationalError
  /\
  fst (get_appointment 3
         (snd (create_appointment_on Accepted Refused visit2 front_desk))) =
    Ok (Appointment.mk 3 1 1 (Date 2024 1 11) (Time 10 0) 0).
Proof.
  split; [|split; reflexivity].
  intros [[appt [db' [Hrun _]]]|[e Hrun]].
  - vm_compute in Hrun. discriminate Hrun.
  - vm_compute in Hrun. discriminate Hrun.
Qed.

(** C6. [create_appointment] raises 404 "Patient not found" whenever no
    patient has the payload's [patient_id], whether or not the doctor exists;
    and 404 "Doctor not found" when the patient exists and no doctor has the
    payload's [doctor_id]. *)
Theorem create_appointment_patient_checked_first db payload :
  (~ patient_exists db (AppointmentCreate.patient_id payload) ->
   fst (create_appointment payload db) =
   Raise (HTTPException 404 "Patient not found"))
  /\
  (patient_exists db (AppointmentCreate.patient_id payload) ->
   ~ doctor_exists db (AppointmentCreate.doctor_id payload) ->
   fst (create_appointment payload db) =
   Raise (HTTPException 404 "Doctor not found")).
Proof.
  split.
  - intros Hp. apply first_missing in Hp.
    rewrite (create_appointment_no_patient payload db Hp). reflexivity.
  - intros Hp Hd. apply first_present in Hp. destruct Hp as [p Hp].
    apply first_missing in Hd.
    rewrite (create_appointment_no_doctor payload db p Hp Hd). reflexivity.
Qed.

Lemma create_appointment_patient_checked_first_witness :
  (~ patient_exists front_desk 99 /\
   fst (create_appointment
          (AppointmentCreate.mk 99 7 (Date 2024 1 12) (Time 11 0))
          front_desk) =
   Raise (HTTPException 404 "Patient not found"))
  /\
  (patient_exists front_desk 1 /\ ~ doctor_exists front_desk 7 /\
   fst (create_appointment
          (AppointmentCreate.mk 1 7 (Date 2024 1 12) (Time 11 0))
          front_desk) =
   Raise (HTTPException 404 "Doctor not found")).
Proof.
  assert (Hno : ~ patient_exists front_desk 99).
  { intros [p [[<-|[]] Hid]]. discriminate Hid. }
  assert (Hp : patient_exists front_desk 1).
  { exists (Patient.mk 1 "Jane" "555" 30 "F"). split; [left|]; reflexivity. }
  assert (Hd : ~ doctor_exists front_desk 7).
  { intros [d [[<-|[]] Hid]]. discriminate Hid. }
  split.
  - split; [exact Hno|].
    exact (proj1 (create_appointment_patient_checked_first front_desk
                    (AppointmentCreate.mk 99 7 (Date 2024 1 12) (Time 11 0)))
             Hno).
  - split; [exact Hp|]. split; [exact Hd|].
    exact (proj2 (create_appointment_patient_checked_first front_desk
                    (AppointmentCreate.mk 1 7 (Date 2024 1 12) (Time 11 0)))
             Hp Hd).
Defined.

(* ------------------------------------------------------------------ *)
(** ** Rescheduling *)

Lemma get_appointment_Ok i db old s :
  get_appointment i db = (Ok old, s) ->
  first Appointment.id i (appointments db) = Some old.
Proof.
  rewrite get_appointment_eq.
  destruct (first Appointment.id i (appointments db)); congruence.
Qed.

Lemma update_appointment_no_appointment i payload db :
  first Appointment.id i (appointments db) = None ->
  update_appointment i payload db =
  (Raise (not_found "Appointment not found"), db).
Proof.
  intros Ha. unfold update_appointment, bind, query_first.
  rewrite Ha. reflexivity.
Qed.

Lemma update_appointment_no_patient i payload db old :
  first Appointment.id i (appointments db) = Some old ->
  first Patient.id (AppointmentCreate.patient_id payload) (patients db)
    = None ->
  update_appointment i payload db =
  (Raise (not_found "Patient not found"), db).
Proof.
  intros Ha Hp. unfold update_appointment, bind, query_first.
  rewrite Ha, Hp. reflexivity.
Qed.

Lemma update_appointment_no_doctor i payload db old p :
  first Appointment.id i (appointments db) = Some old ->
  first Patient.id (AppointmentCreate.patient_id payload) (patients db)
    = Some p ->
  first Doctor.id (AppointmentCreate.doctor_id payload) (doctors db)
    = None ->
  update_appointment i payload db =
  (Raise (not_found "Doctor not found"), db).
Proof.
  intros Ha Hp Hd. unfold update_appointment, bind, query_first.
  rewrite Ha, Hp, Hd. reflexivity.
Qed.

(** The appointment found under [i] once the row of [i] took the values of
    an object that carries the id [i]. *)
Lemma get_appointment_updated i obj db old :
  first Appointment.id i (appointments db) = Some old ->
  Appointment.id obj = i ->
  get_appointment i
    (with_appointments db (update_row Appointment.id obj (appointments db)))
  = (Ok obj,
     with_appointments db (update_row Appointment.id obj (appointments db))).
Proof.
  intros Hold Hid. rewrite get_appointment_eq. db_simpl.
  rewrite first_update_row, Hid, Z.eqb_refl, Hold. reflexivity.
Qed.

Lemma get_appointment_other i j obj db :
  Appointment.id obj = i -> j <> i ->
  fst (get_appointment j
         (with_appointments db
            (update_row Appointment.id obj (appointments db))))
  = fst (get_appointment j db).
Proof.
  intros Hid Hne. rewrite !get_appointment_eq. db_simpl.
  rewrite first_update_row, Hid.
  rewrite (proj2 (Z.eqb_neq j i) Hne).
  destruct (first Appointment.id j (appointments db)); reflexivity.
Qed.

(** C5. On an existing appointment, with a patient and a doctor that exist,
    [update_appointment] overwrites [patient_id], [doctor_id], [date] and
    [time] with the payload's and leaves [token_number] (and the id) as they
    were; the patients, the doctors and the appointments of every other id
    are as before.  On an id that no appointment has, it raises 404
    "Appointment not found". *)
Theorem update_appointment_overwrites_payload_fields db i payload :
  (forall old,
      get_appointment i db = (Ok old, db) ->
      patient_exists db (AppointmentCreate.patient_id payload) ->
      doctor_exists db (AppointmentCreate.doctor_id payload) ->
      exists new db',
        update_appointment i payload db = (Ok new, db') /\
        get_appointment i db' = (Ok new, db') /\
        Appointment.patient_id new = AppointmentCreate.patient_id payload /\
        Appointment.doctor_id new = AppointmentCreate.doctor_id payload /\
        Appointment.date new = AppointmentCreate.date payload /\
        Appointment.time new = AppointmentCreate.time payload /\
        Appointment.token_number new = Appointment.token_number old /\
        Appointment.id new = Appointment.id old /\
        patients db' = patients db /\
        doctors db' = doctors db /\
        (forall j, j <> i ->
                   fst (get_appointment j db') = fst (get_appointment j db)))
  /\
  (~ appointment_exists db i ->
   update_appointment i payload db =
   (Raise (HTTPException 404 "Appointment not found"), db)).
Proof.
  split.
  - intros old Hget Hp Hd.
    apply get_appointment_Ok in Hget.
    apply first_present in Hp. destruct Hp as [p Hp].
    apply first_present in Hd. destruct Hd as [d Hd].
    assert (Hid : Appointment.id (setattr_appointment old payload) = i).
    { apply first_Some in Hget. simpl. apply Hget. }
    eexists. eexists.
    split; [exact (update_appointment_ok i payload db old p d Hget Hp Hd)|].
    split; [exact (get_appointment_updated i _ db old Hget Hid)|].
    repeat (split; [reflexivity|]).
    intros j Hne. apply (get_appointment_other i); assumption.
  - intros Ha. apply first_missing in Ha.
    apply update_appointment_no_appointment. exact Ha.
Qed.

Lemma update_appointment_overwrites_payload_fields_witness :
  get_appointment 1 front_desk =
    (Ok (Appointment.mk 1 1 1 (Date 2024 1 10) (Time 9 0) 1), front_desk) /\
  patient_exists front_desk 1 /\
  doctor_exists front_desk 1 /\
  exists new db',
    update_appointment 1 visit1_moved front_desk = (Ok new, db') /\
    Appointment.date new = Date 2024 2 1 /\
    Appointment.token_number new = 1.
Proof.
  assert (Hget : get_appointment 1 front_desk =
            (Ok (Appointment.mk 1 1 1 (Date 2024 1 10) (Time 9 0) 1),
             front_desk)) by reflexivity.
  assert (Hp : patient_exists front_desk 1).
  { exists (Patient.mk 1 "Jane" "555" 30 "F"). split; [left|]; reflexivity. }
  assert (Hd : doctor_exists front_desk 1).
  { exists (Doctor.mk 1 "Smith" "556" "Cardio").
    split; [left|]; reflexivity. }
  split; [exact Hget|]. split; [exact Hp|]. split; [exact Hd|].
  destruct (proj1 (update_appointment_overwrites_payload_fields
                     front_desk 1 visit1_moved) _ Hget Hp Hd)
    as [new [db' [Hput [_ [_ [_ [Hdate [_ [Htoken _]]]]]]]]].
  exists new, db'. split; [exact Hput|]. split; [exact Hdate|exact Htoken].
Defined.

(** C7. [update_appointment] looks for the appointment first, then for the
    patient, then for the doctor; the first that is missing decides the
    exception, a 404 that names it, and the database is left as it was. *)
Theorem update_appointment_checks_in_order db i payload :
  (~ appointment_exists db i ->
   update_appointment i payload db =
   (Raise (HTTPException 404 "Appointment not found"), db))
  /\
  (appointment_exists db i ->
   ~ patient_exists db (AppointmentCreate.patient_id payload) ->
   update_appointment i payload db =
   (Raise (HTTPException 404 "Patient not found"), db))
  /\
  (appointment_exists db i ->
   patient_exists db (AppointmentCreate.patient_id payload) ->
   ~ doctor_exists db (AppointmentCreate.doctor_id payload) ->
   update_appointment i payload db =
   (Raise (HTTPException 404 "Doctor not found"), db)).
Proof.
  split; [|split].
  - intros Ha. apply first_missing in Ha.
    apply update_appointment_no_appointment. exact Ha.
  - intros Ha Hp. apply first_present in Ha. destruct Ha as [old Ha].
    apply first_missing in Hp.
    apply (update_appointment_no_patient i payload db old Ha Hp).
  - intros Ha Hp Hd. apply first_present in Ha. destruct Ha as [old Ha].
    apply first_present in Hp. destruct Hp as [p Hp].
    apply first_missing in Hd.
    apply (update_appointment_no_doctor i payload db old p Ha Hp Hd).
Qed.

Lemma update_appointment_checks_in_order_witness :
  (~ appointment_exists front_desk 5 /\
   update_appointment 5 (AppointmentCreate.mk 99 7 (Date 2024 2 1) (Time 8 30))
     front_desk =
   (Raise (HTTPException 404 "Appointment not found"), front_desk))
  /\
  (appointment_exists front_desk 1 /\ ~ patient_exists front_desk 99 /\
   update_appointment 1 (AppointmentCreate.mk 99 7 (Date 2024 2 1) (Time 8 30))
     front_desk =
   (Raise (HTTPException 404 "Patient not found"), front_desk))
  /\
  (appointment_exists front_desk 1 /\ patient_exists front_desk 1 /\
   ~ doctor_exists front_desk 7 /\
   update_appointment 1 (AppointmentCreate.mk 1 7 (Date 2024 2 1) (Time 8 30))
     front_desk =
   (Raise (HTTPException 404 "Doctor not found"), front_desk)).
Proof.
  assert (Hno5 : ~ appointment_exists front_desk 5).
  { intros [a [[<-|[<-|[]]] Hid]]; discriminate Hid. }
  assert (Ha : appointment_exists front_desk 1).
  { exists (Appointment.mk 1 1 1 (Date 2024 1 10) (Time 9 0) 1).
    split; [left|]; reflexivity. }
  assert (Hno99 : ~ patient_exists front_desk 99).
  { intros [p [[<-|[]] Hid]]. discriminate Hid. }
  assert (Hp : patient_exists front_desk 1).
  { exists (Patient.mk 1 "Jane" "555" 30 "F"). split; [left|]; reflexivity. }
  assert (Hno7 : ~ doctor_exists front_desk 7).
  { intros [d [[<-|[]] Hid]]. discriminate Hid. }
  split; [|split].
  - split; [exact Hno5|].
    exact (proj1 (update_appointment_checks_in_order front_desk 5
                    (AppointmentCreate.mk 99 7 (Date 2024 2 1) (Time 8 30)))
             Hno5).
  - split; [exact Ha|]. split; [exact Hno99|].
    exact (proj1 (proj2 (update_appointment_checks_in_order front_desk 1
                    (AppointmentCreate.mk 99 7 (Date 2024 2 1) (Time 8 30))))
             Ha Hno99).
  - split; [exact Ha|]. split; [exact Hp|]. split; [exact Hno7|].
    exact (proj2 (proj2 (update_appointment_checks_in_order front_desk 1
                    (AppointmentCreate.mk 1 7 (Date 2024 2 1) (Time 8 30))))
             Ha Hp Hno7).
Defined.

(** C10. The [setattr] loop of [update_appointment] writes the four fields
    of the payload and not the id: after a successful update the returned
    appointment has the id it had, the one of the request, and
    [get_appointment] of that id returns it. *)
Theorem update_appointment_keeps_id db i payload old :
  get_appointment i db = (Ok old, db) ->
  patient_exists db (AppointmentCreate.patient_id payload) ->
  doctor_exists db (AppointmentCreate.doctor_id payload) ->
  Appointment.id (setattr_appointment old payload) = Appointment.id old /\
  exists new db',
    update_appointment i payload db = (Ok new, db') /\
    Appointment.id new = Appointment.id old /\
    Appointment.id new = i /\
    get_appointment i db' = (Ok new, db').
Proof.
  intros Hget Hp Hd. split; [reflexivity|].
  apply get_appointment_Ok in Hget.
  apply first_present in Hp. destruct Hp as [p Hp].
  apply first_present in Hd. destruct Hd as [d Hd].
  assert (Hid : Appointment.id (setattr_appointment old payload) = i).
  { apply first_Some in Hget. simpl. apply Hget. }
  eexists. eexists.
  split; [exact (update_appointment_ok i payload db old p d Hget Hp Hd)|].
  split; [reflexivity|]. split; [exact Hid|].
  exact (get_appointment_updated i _ db old Hget Hid).
Qed.

Lemma update_appointment_keeps_id_witness :
  get_appointment 2 front_desk =
    (Ok (Appointment.mk 2 1 1 (Date 2024 1 11) (Time 10 0) 2), front_desk) /\
  patient_exists front_desk 1 /\
  doctor_exists front_desk 1 /\
  exists new db',
    update_appointment 2 visit1_moved front_desk = (Ok new, db') /\
    Appointment.id new = 2 /\
    get_appointment 2 db' = (Ok new, db').
Proof.
  assert (Hget : get_appointment 2 front_desk =
            (Ok (Appointment.mk 2 1 1 (Date 2024 1 11) (Time 10 0) 2),
             front_desk)) by reflexivity.
  assert (Hp : patient_exists front_desk 1).
  { exists (Patient.mk 1 "Jane" "555" 30 "F"). split; [left|]; reflexivity. }
  assert (Hd : doctor_exists front_desk 1).
  { exists (Doctor.mk 1 "Smith" "556" "Cardio").
    split; [left|]; reflexivity. }
  split; [exact Hget|]. split; [exact Hp|]. split; [exact Hd|].
  destruct (update_appointment_keeps_id front_desk 2 visit1_moved _
              Hget Hp Hd)
    as [_ [new [db' [Hput [_ [Hid Hget']]]]]].
  exists new, db'. split; [exact Hput|]. split; [exact Hid|exact Hget'].
Defined.

(* ------------------------------------------------------------------ *)
(** ** Cancelling *)

(** C8. [delete_appointment] raises 404 "Appointment not found" when no
    appointment has the id.  Otherwise it removes the appointment of that id
    and nothing else: patients, doctors and the appointments of other ids
    stay; afterwards [get_appointment] of the id raises 404, and so does a
    second [delete_appointment]. *)
Theorem delete_appointment_removes_once db i :
  (~ appointment_exists db i ->
   delete_appointment i db =
   (Raise (HTTPException 404 "Appointment not found"), db))
  /\
  (appointment_exists db i ->
   exists db',
     delete_appointment i db =
       (Ok [("detail", "Appointment deleted")], db') /\
     (forall a, In a (appointments db') <->
                In a (appointments db) /\ Appointment.id a <> i) /\
     patients db' = patients db /\
     doctors db' = doctors db /\
     (forall j, j <> i ->
                fst (get_appointment j db') = fst (get_appointment j db)) /\
     get_appointment i db' =
       (Raise (HTTPException 404 "Appointment not found"), db') /\
     delete_appointment i db' =
       (Raise (HTTPException 404 "Appointment not found"), db')).
Proof.
  pose proof (delete_appointment_eq i db) as Hdel.
  split.
  - intros Ha. apply first_missing in Ha. rewrite Ha in Hdel. exact Hdel.
  - intros Ha. apply first_present in Ha. destruct Ha as [a Ha].
    rewrite Ha in Hdel.
    set (db' := with_appointments db
                  (delete_where Appointment.id i (appointments db))) in *.
    assert (Hgone : first Appointment.id i (appointments db') = None).
    { unfold db'. db_simpl. rewrite first_delete_where, Z.eqb_refl.
      reflexivity. }
    exists db'. split; [exact Hdel|].
    split; [intros r; unfold db'; db_simpl; apply in_delete_where|].
    split; [reflexivity|]. split; [reflexivity|].
    split; [|split].
    + intros j Hne. rewrite !get_appointment_eq. unfold db'. db_simpl.
      rewrite first_delete_where, (proj2 (Z.eqb_neq j i) Hne). 
      destruct (first Appointment.id j (appointments db)); reflexivity.
    + rewrite get_appointment_eq, Hgone. reflexivity.
    + pose proof (delete_appointment_eq i db') as Hagain.
      rewrite Hgone in Hagain. exact Hagain.
Qed.

Lemma delete_appointment_removes_once_witness :
  (~ appointment_exists front_desk 5 /\
   delete_appointment 5 front_desk =
   (Raise (HTTPException 404 "Appointment not found"), front_desk))
  /\
  (appointment_exists front_desk 1 /\
   exists db',
     delete_appointment 1 front_desk =
       (Ok [("detail", "Appointment deleted")], db') /\
     delete_appointment 1 db' =
       (Raise (HTTPException 404 "Appointment not found"), db')).
Proof.
  assert (Hno5 : ~ appointment_exists front_desk 5).
  { intros [a [[<-|[<-|[]]] Hid]]; discriminate Hid. }
  assert (Ha : appointment_exists front_desk 1).
  { exists (Appointment.mk 1 1 1 (Date 2024 1 10) (Time 9 0) 1).
    split; [left|]; reflexivity. }
  split.
  - split; [exact Hno5|].
    exact (proj1 (delete_appointment_removes_once front_desk 5) Hno5).
  - split; [exact Ha|].
    destruct (proj2 (delete_appointment_removes_once front_desk 1) Ha)
      as [db' [Hdel [_ [_ [_ [_ [_ Hagain]]]]]]].
    exists db'. split; [exact Hdel|exact Hagain].
Defined.

(* ------------------------------------------------------------------ *)
(** ** Deleting a patient or a doctor *)

(** Under unique ids, no row that a [DELETE ... WHERE col = y] leaves has
    the id of a row it removed. *)
Lemma first_deleted_row {R} (key col : R -> Z) y rows a :
  NoDup (map key rows) -> In a rows -> col a = y ->
  first key (key a) (delete_where col y rows) = None.
Proof.
  intros Hnd Hin Hcol. apply first_None. intros r Hr Hkey.
  apply in_delete_where in Hr. destruct Hr as [Hr Hne].
  pose proof (first_In key rows r Hnd Hr) as H1.
  pose proof (first_In key rows a Hnd Hin) as H2.
  rewrite Hkey, H2 in H1. injection H1 as ->. contradiction.
Qed.

(** C4. Deleting a patient that exists deletes every appointment whose
    [patient_id] is the patient's id: [get_appointment] of its id then
    raises 404 and [list_appointments] does not return it; the same holds
    for a doctor and [doctor_id].  In every database that completed requests
    produce from the empty one, each appointment's patient and doctor
    exist. *)
Theorem delete_cascades_and_no_orphans :
  (forall db i,
      primary_key db -> patient_exists db i ->
      exists db' l,
        delete_patient i db = (Ok [("detail", "Patient deleted")], db') /\
        list_appointments db' = (Ok l, db') /\
        (forall a, In a l -> Appointment.patient_id a <> i) /\
        forall a,
          In a (appointments db) -> Appointment.patient_id a = i ->
          get_appointment (Appointment.id a) db' =
            (Raise (HTTPException 404 "Appointment not found"), db') /\
          ~ In a l)
  /\
  (forall db i,
      primary_key db -> doctor_exists db i ->
      exists db' l,
        delete_doctor i db = (Ok [("detail", "Doctor deleted")], db') /\
        list_appointments db' = (Ok l, db') /\
        (forall a, In a l -> Appointment.doctor_id a <> i) /\
        forall a,
          In a (appointments db) -> Appointment.doctor_id a = i ->
          get_appointment (Appointment.id a) db' =
            (Raise (HTTPException 404 "Appointment not found"), db') /\
          ~ In a l)
  /\
  (forall db,
      reachable db ->
      forall a, In a (appointments db) ->
                patient_exists db (Appointment.patient_id a) /\
                doctor_exists db (Appointment.doctor_id a)).
Proof.
  split; [|split].
  - intros db i [_ [_ Hpk]] Hp.
    apply first_present in Hp. destruct Hp as [p Hp].
    pose proof (delete_patient_eq i db) as Hdel. rewrite Hp in Hdel.
    eexists. eexists. split; [exact Hdel|]. split; [reflexivity|].
    db_simpl. split.
    + intros a Hleft. apply in_delete_where in Hleft. tauto.
    + intros a Hin Hcol. split.
      * rewrite get_appointment_eq. db_simpl.
        rewrite (first_deleted_row Appointment.id Appointment.patient_id
                   i _ a Hpk Hin Hcol).
        reflexivity.
      * intros Hleft. apply in_delete_where in Hleft. tauto.
  - intros db i [_ [_ Hpk]] Hd.
    apply first_present in Hd. destruct Hd as [d Hd].
    pose proof (delete_doctor_eq i db) as Hdel. rewrite Hd in Hdel.
    eexists. eexists. split; [exact Hdel|]. split; [reflexivity|].
    db_simpl. split.
    + intros a Hleft. apply in_delete_where in Hleft. tauto.
    + intros a Hin Hcol. split.
      * rewrite get_appointment_eq. db_simpl.
        rewrite (first_deleted_row Appointment.id Appointment.doctor_id
                   i _ a Hpk Hin Hcol).
        reflexivity.
      * intros Hleft. apply in_delete_where in Hleft. tauto.
  - intros db Hreach a Hin.
    destruct (inv_referenced db (reachable_invariant db Hreach) a Hin)
      as [Hp Hd].
    split; apply first_exists; assumption.
Qed.

Lemma delete_cascades_and_no_orphans_witness :
  primary_key front_desk /\
  patient_exists front_desk 1 /\
  doctor_exists front_desk 1 /\
  (exists db',
      delete_patient 1 front_desk =
        (Ok [("detail", "Patient deleted")], db') /\
      get_appointment 1 db' =
        (Raise (HTTPException 404 "Appointment not found"), db') /\
      get_appointment 2 db' =
        (Raise (HTTPException 404 "Appointment not found"), db')) /\
  (exists db',
      delete_doctor 1 front_desk =
        (Ok [("detail", "Doctor deleted")], db') /\
      get_appointment 1 db' =
        (Raise (HTTPException 404 "Appointment not found"), db') /\
      get_appointment 2 db' =
        (Raise (HTTPException 404 "Appointment not found"), db')).
Proof.
  assert (Hpk : primary_key front_desk).
  { repeat split; repeat constructor; simpl; intuition discriminate. }
  assert (Hp : patient_exists front_desk 1).
  { exists (Patient.mk 1 "Jane" "555" 30 "F"). split; [left|]; reflexivity. }
  assert (Hd : doctor_exists front_desk 1).
  { exists (Doctor.mk 1 "Smith" "556" "Cardio").
    split; [left|]; reflexivity. }
  assert (H1 : In (Appointment.mk 1 1 1 (Date 2024 1 10) (Time 9 0) 1)
                 (appointments front_desk)) by (left; reflexivity).
  assert (H2 : In (Appointment.mk 2 1 1 (Date 2024 1 11) (Time 10 0) 2)
                 (appointments front_desk)) by (right; left; reflexivity).
  split; [exact Hpk|]. split; [exact Hp|]. split; [exact Hd|]. split.
  - destruct (proj1 delete_cascades_and_no_orphans front_desk 1 Hpk Hp)
      as [db' [l [Hdel [_ [_ Hall]]]]].
    exists db'. split; [exact Hdel|]. split.
    + exact (proj1 (Hall _ H1 eq_refl)).
    + exact (proj1 (Hall _ H2 eq_refl)).
  - destruct (proj1 (proj2 delete_cascades_and_no_orphans)
                front_desk 1 Hpk Hd)
      as [db' [l [Hdel [_ [_ Hall]]]]].
    exists db'. split; [exact Hdel|]. split.
    + exact (proj1 (Hall _ H1 eq_refl)).
    + exact (proj1 (Hall _ H2 eq_refl)).
Defined.

(* ------------------------------------------------------------------ *)
(** ** The scenario of the specification *)

(** C9. From the empty database: the first patient created has id 1; the
    first doctor created has id 1; the first appointment booked for patient
    1 and doctor 1 has id 1 and token 1, the second id 2 and token 2; and
    booking for patient 99 raises 404 "Patient not found". *)
Theorem scenario_from_empty_db pp dp d1 t1 d2 t2 d3 t3 :
  exists p db1 d db2 a1 db3 a2 db4,
    create_patient pp empty_db = (Ok p, db1) /\
    Patient.id p = 1 /\
    create_doctor dp db1 = (Ok d, db2) /\
    Doctor.id d = 1 /\
    create_appointment (AppointmentCreate.mk 1 1 d1 t1) db2 = (Ok a1, db3) /\
    Appointment.id a1 = 1 /\
    Appointment.token_number a1 = 1 /\
    create_appointment (AppointmentCreate.mk 1 1 d2 t2) db3 = (Ok a2, db4) /\
    Appointment.id a2 = 2 /\
    Appointment.token_number a2 = 2 /\
    create_appointment (AppointmentCreate.mk 99 1 d3 t3) db4 =
      (Raise (HTTPException 404 "Patient not found"), db4).
Proof.
  do 8 eexists.
  repeat (split; [reflexivity|]). reflexivity.
Qed.

(* ------------------------------------------------------------------ *)
(** ** Further properties of the handlers *)

Lemma database_eta db :
  mkDatabase (patients db) (doctors db) (appointments db) = db.
Proof. destruct db; reflexivity. Qed.

Lemma get_patient_eq i db :
  get_patient i db =
  match first Patient.id i (patients db) with
  | None => (Raise (not_found "Patient not found"), db)
  | Some p => (Ok p, db)
  end.
Proof.
  unfold get_patient, bind, query_first.
  destruct (first Patient.id i (patients db)); reflexivity.
Qed.

Lemma get_doctor_eq i db :
  get_doctor i db =
  match first Doctor.id i (doctors db) with
  | None => (Raise (not_found "Doctor not found"), db)
  | Some d => (Ok d, db)
  end.
Proof.
  unfold get_doctor, bind, query_first.
  destruct (first Doctor.id i (doctors db)); reflexivity.
Qed.

Lemma first_cases {R} (key : R -> Z) x rows :
  (~ (exists r, In r rows /\ key r = x) /\ first key x rows = None) \/
  (exists r, In r rows /\ key r = x /\ first key x rows = Some r).
Proof.
  destruct (first key x rows) as [r|] eqn:Hr.
  - right. exists r. apply (first_Some key) in Hr as Hin.
    destruct Hin as [Hin Hkey]. auto.
  - left. split; [|reflexivity].
    intros [r [Hin Hkey]].
    apply (proj1 (first_None key x rows) Hr r Hin Hkey).
Qed.

Lemma delete_where_absent {R} (col : R -> Z) y rows :
  (forall r, In r rows -> col r <> y) -> delete_where col y rows = rows.
Proof.
  unfold delete_where. induction rows as [|a rows IH]; intros H.
  - reflexivity.
  - cbn [filter]. rewrite (proj2 (Z.eqb_neq (col a) y)) by (apply H; left; auto).
    cbn [negb]. f_equal. apply IH. intros r Hin. apply H. right. exact Hin.
Qed.

Lemma delete_where_last {R} (col : R -> Z) rows a :
  (forall r, In r rows -> col r <> col a) ->
  delete_where col (col a) (rows ++ [a]) = rows.
Proof.
  intros H. unfold delete_where. rewrite filter_app.
  fold (delete_where col (col a) rows). rewrite delete_where_absent by exact H.
  cbn [filter]. rewrite Z.eqb_refl. cbn [negb]. apply app_nil_r.
Qed.

Lemma first_filter {R} (key : R -> Z) (f : R -> bool) x rows r :
  first key x rows = Some r -> f r = true ->
  first key x (filter f rows) = Some r.
Proof.
  unfold first. induction rows as [|a rows IH]; cbn [find filter].
  - discriminate.
  - destruct (key a =? x) eqn:Ha.
    + intros Heq Hf. injection Heq as ->. rewrite Hf. cbn [find].
      rewrite Ha. reflexivity.
    + intros Hr Hf. destruct (f a); cbn [find]; [rewrite Ha|]; auto.
Qed.

Lemma update_row_idem {R} (key : R -> Z) obj rows :
  update_row key obj (update_row key obj rows) = update_row key obj rows.
Proof.
  unfold update_row. rewrite map_map. apply map_ext. intros r.
  destruct (key r =? key obj) eqn:Hr; [rewrite Z.eqb_refl|rewrite Hr];
    reflexivity.
Qed.

Lemma first_last_fresh {R} (key : R -> Z) rows a :
  key a = generate_id (map key rows) ->
  first key (key a) (rows ++ [a]) = Some a.
Proof.
  intros Hkey. rewrite first_app.
  rewrite (proj2 (first_None key (key a) rows)).
  - unfold first. cbn [find]. rewrite Z.eqb_refl. reflexivity.
  - intros r Hin. rewrite Hkey. apply generate_id_fresh. exact Hin.
Qed.

Lemma first_app_other {R} (key : R -> Z) x rows a :
  x <> key a -> first key x (rows ++ [a]) = first key x rows.
Proof.
  intros Hne. rewrite first_app.
  destruct (first key x rows); [reflexivity|].
  unfold first. cbn [find].
  rewrite (proj2 (Z.eqb_neq (key a) x)) by congruence. reflexivity.
Qed.

(** X1. Each of [get_patient], [get_doctor] and [get_appointment] either
    raises its 404, when no row of the table has the id, or returns a row of
    the table that has the id; the database is returned as it was. *)
Theorem get_returns_row_of_id_or_404 db i :
  ((~ patient_exists db i /\
    get_patient i db =
    (Raise (HTTPException 404 "Patient not found"), db)) \/
   (exists p, In p (patients db) /\ Patient.id p = i /\
              get_patient i db = (Ok p, db)))
  /\
  ((~ doctor_exists db i /\
    get_doctor i db = (Raise (HTTPException 404 "Doctor not found"), db)) \/
   (exists d, In d (doctors db) /\ Doctor.id d = i /\
              get_doctor i db = (Ok d, db)))
  /\
  ((~ appointment_exists db i /\
    get_appointment i db =
    (Raise (HTTPException 404 "Appointment not found"), db)) \/
   (exists a, In a (appointments db) /\ Appointment.id a = i /\
              get_appointment i db = (Ok a, db))).
Proof.
  rewrite get_patient_eq, get_doctor_eq, get_appointment_eq.
  split; [|split].
  - destruct (first_cases Patient.id i (patients db))
      as [[Hno ->]|[p [Hin [Hid ->]]]]; [left|right]; eauto.
  - destruct (first_cases Doctor.id i (doctors db))
      as [[Hno ->]|[d [Hin [Hid ->]]]]; [left|right]; eauto.
  - destruct (first_cases Appointment.id i (appointments db))
      as [[Hno ->]|[a [Hin [Hid ->]]]]; [left|right]; eauto.
Qed.

(** X2. For a payload whose [age] the Integer column holds,
    [create_patient] returns a patient that carries the payload's four
    fields under an id that no stored patient has; the patient is added last
    to the patients, [get_patient] of its id returns it, every other id
    finds what it found before, and doctors and appointments are as they
    were. *)
Theorem create_patient_adds_one payload db :
  integer_column (PatientCreate.age payload) = true ->
  exists p db',
    create_patient payload db = (Ok p, db') /\
    Patient.name p = PatientCreate.name payload /\
    Patient.phone p = PatientCreate.phone payload /\
    Patient.age p = PatientCreate.age payload /\
    Patient.gender p = PatientCreate.gender payload /\
    ~ patient_exists db (Patient.id p) /\
    patients db' = patients db ++ [p] /\
    doctors db' = doctors db /\
    appointments db' = appointments db /\
    get_patient (Patient.id p) db' = (Ok p, db') /\
    (forall j, j <> Patient.id p ->
               fst (get_patient j db') = fst (get_patient j db)).
Proof.
  intros _.
  set (p := Patient.mk (generate_id (map Patient.id (patients db)))
              (PatientCreate.name payload) (PatientCreate.phone payload)
              (PatientCreate.age payload) (PatientCreate.gender payload)).
  exists p, (with_patients db (patients db ++ [p])).
  split.
  { unfold create_patient, bind, add_commit_patient. fold p.
    erewrite refresh_inserted; reflexivity. }
  repeat (split; [reflexivity|]).
  split.
  { intros [r [Hin Hid]].
    apply (generate_id_fresh Patient.id (patients db) r Hin). exact Hid. }
  repeat (split; [reflexivity|]).
  split.
  - rewrite get_patient_eq. db_simpl.
    rewrite (first_last_fresh Patient.id (patients db) p) by reflexivity.
    reflexivity.
  - intros j Hne. rewrite !get_patient_eq. db_simpl.
    rewrite (first_app_other Patient.id j (patients db) p Hne).
    destruct (first Patient.id j (patients db)); reflexivity.
Qed.

Lemma create_patient_adds_one_witness :
  integer_column (PatientCreate.age mary) = true /\
  exists p db',
    create_patient mary front_desk = (Ok p, db') /\
    Patient.name p = "Mary" /\
    get_patient (Patient.id p) db' = (Ok p, db').
Proof.
  assert (Hage : integer_column (PatientCreate.age mary) = true)
    by reflexivity.
  split; [exact Hage|].
  destruct (create_patient_adds_one mary front_desk Hage)
    as [p [db' [Hnew [Hname [_ [_ [_ [_ [_ [_ [_ [Hget _]]]]]]]]]]]].
  exists p, db'. split; [exact Hnew|]. split; [exact Hname|exact Hget].
Defined.

(** X3. [create_doctor] returns a doctor that carries the payload's three
    fields under an id that no stored doctor has; the doctor is added last
    to the doctors, [get_doctor] of its id returns it, every other id finds
    what it found before, and patients and appointments are as they were. *)
Theorem create_doctor_adds_one payload db :
  exists d db',
    create_doctor payload db = (Ok d, db') /\
    Doctor.name d = DoctorCreate.name payload /\
    Doctor.phone d = DoctorCreate.phone payload /\
    Doctor.specialty d = DoctorCreate.specialty payload /\
    ~ doctor_exists db (Doctor.id d) /\
    doctors db' = doctors db ++ [d] /\
    patients db' = patients db /\
    appointments db' = appointments db /\
    get_doctor (Doctor.id d) db' = (Ok d, db') /\
    (forall j, j <> Doctor.id d ->
               fst (get_doctor j db') = fst (get_doctor j db)).
Proof.
  set (d := Doctor.mk (generate_id (map Doctor.id (doctors db)))
              (DoctorCreate.name payload) (DoctorCreate.phone payload)
              (DoctorCreate.specialty payload)).
  exists d, (with_doctors db (doctors db ++ [d])).
  split.
  { unfold create_doctor, bind, add_commit_doctor. fold d.
    erewrite refresh_inserted; reflexivity. }
  repeat (split; [reflexivity|]).
  split.
  { intros [r [Hin Hid]].
    apply (generate_id_fresh Doctor.id (doctors db) r Hin). exact Hid. }
  repeat (split; [reflexivity|]).
  split.
  - rewrite get_doctor_eq. db_simpl.
    rewrite (first_last_fresh Doctor.id (doctors db) d) by reflexivity.
    reflexivity.
  - intros j Hne. rewrite !get_doctor_eq. db_simpl.
    rewrite (first_app_other Doctor.id j (doctors db) d Hne).
    destruct (first Doctor.id j (doctors db)); reflexivity.
Qed.

(** X4. [update_patient] raises 404 "Patient not found" and changes nothing
    when no patient has the id, whatever the payload.  When a patient is
    found under the id and the payload's [age] is one the Integer column
    holds, that patient takes the payload's name, phone, age and gender and
    keeps its id; [get_patient] of the id returns the updated patient, every
    other id finds what it found before, and doctors and appointments are as
    they were. *)
Theorem update_patient_overwrites_or_404 db i payload :
  (~ patient_exists db i ->
   update_patient i payload db =
   (Raise (HTTPException 404 "Patient not found"), db))
  /\
  (integer_column (PatientCreate.age payload) = true ->
   forall old,
     get_patient i db = (Ok old, db) ->
     exists new db',
       update_patient i payload db = (Ok new, db') /\
       new = Patient.mk (Patient.id old)
               (PatientCreate.name payload) (PatientCreate.phone payload)
               (PatientCreate.age payload) (PatientCreate.gender payload) /\
       Patient.id new = i /\
       get_patient i db' = (Ok new, db') /\
       (forall j, j <> i ->
                  fst (get_patient j db') = fst (get_patient j db)) /\
       doctors db' = doctors db /\
       appointments db' = appointments db).
Proof.
  pose proof (update_patient_eq i payload db) as Hput.
  split.
  - intros Hno. apply first_missing in Hno. rewrite Hno in Hput. exact Hput.
  - intros _ old Hget. rewrite get_patient_eq in Hget.
    destruct (first Patient.id i (patients db)) as [old'|] eqn:Hsome;
      [|discriminate Hget].
    injection Hget as ->.
    assert (Hid : Patient.id old = i)
      by (apply first_Some in Hsome; apply Hsome).
    eexists. eexists.
    split; [exact Hput|]. split; [reflexivity|]. split; [exact Hid|].
    split; [|split; [|split; reflexivity]].
    + rewrite get_patient_eq. db_simpl. rewrite first_update_row.
      cbn [setattr_patient Patient.id]. rewrite Hid, Z.eqb_refl, Hsome.
      reflexivity.
    + intros j Hne. rewrite !get_patient_eq. db_simpl.
      rewrite first_update_row. cbn [setattr_patient Patient.id].
      rewrite Hid, (proj2 (Z.eqb_neq j i) Hne).
      destruct (first Patient.id j (patients db)); reflexivity.
Qed.

Lemma update_patient_overwrites_or_404_witness :
  (~ patient_exists front_desk 7 /\
   update_patient 7 mary front_desk =
   (Raise (HTTPException 404 "Patient not found"), front_desk))
  /\
  (integer_column (PatientCreate.age mary) = true /\
   get_patient 1 front_desk =
     (Ok (Patient.mk 1 "Jane" "555" 30 "F"), front_desk) /\
   exists new db',
     update_patient 1 mary front_desk = (Ok new, db') /\
     new = Patient.mk 1 "Mary" "557" 41 "F" /\
     get_patient 1 db' = (Ok new, db')).
Proof.
  assert (Hno : ~ patient_exists front_desk 7).
  { intros [p [[<-|[]] Hid]]. discriminate Hid. }
  assert (Hage : integer_column (PatientCreate.age mary) = true)
    by reflexivity.
  assert (Hget : get_patient 1 front_desk =
            (Ok (Patient.mk 1 "Jane" "555" 30 "F"), front_desk))
    by reflexivity.
  split.
  - split; [exact Hno|].
    exact (proj1 (update_patient_overwrites_or_404 front_desk 7 mary) Hno).
  - split; [exact Hage|]. split; [exact Hget|].
    destruct (proj2 (update_patient_overwrites_or_404 front_desk 1 mary)
                Hage _ Hget)
      as [new [db' [Hput [Hnew [_ [Hget' _]]]]]].
    exists new, db'. split; [exact Hput|]. split; [exact Hnew|exact Hget'].
Defined.

(** X5. [update_doctor] raises 404 "Doctor not found" and changes nothing
    when no doctor has the id.  Otherwise the doctor found under the id
    takes the payload's name, phone and specialty and keeps its id;
    [get_doctor] of the id returns the updated doctor, every other id finds
    what it found before, and patients and appointments are as they were. *)
Theorem update_doctor_overwrites_or_404 db i payload :
  (~ doctor_exists db i /\
   update_doctor i payload db =
   (Raise (HTTPException 404 "Doctor not found"), db))
  \/
  (exists old new db',
      get_doctor i db = (Ok old, db) /\
      update_doctor i payload db = (Ok new, db') /\
      new = Doctor.mk (Doctor.id old)
              (DoctorCreate.name payload) (DoctorCreate.phone payload)
              (DoctorCreate.specialty payload) /\
      Doctor.id new = i /\
      get_doctor i db' = (Ok new, db') /\
      (forall j, j <> i ->
                 fst (get_doctor j db') = fst (get_doctor j db)) /\
      patients db' = patients db /\
      appointments db' = appointments db).
Proof.
  pose proof (update_doctor_eq i payload db) as Hput.
  destruct (first_cases Doctor.id i (doctors db))
    as [[Hno Hnone]|[old [Hin [Hid Hsome]]]].
  - left. rewrite Hnone in Hput. split; assumption.
  - right. rewrite Hsome in Hput.
    exists old. eexists. eexists.
    split; [rewrite get_doctor_eq, Hsome; reflexivity|].
    split; [exact Hput|]. split; [reflexivity|]. split; [exact Hid|].
    split; [|split; [|split; reflexivity]].
    + rewrite get_doctor_eq. db_simpl. rewrite first_update_row.
      cbn [setattr_doctor Doctor.id]. rewrite Hid, Z.eqb_refl, Hsome.
      reflexivity.
    + intros j Hne. rewrite !get_doctor_eq. db_simpl.
      rewrite first_update_row. cbn [setattr_doctor Doctor.id].
      rewrite Hid, (proj2 (Z.eqb_neq j i) Hne).
      destruct (first Doctor.id j (doctors db)); reflexivity.
Qed.

(** X6. [delete_patient] raises 404 "Patient not found" and changes nothing
    when no patient has the id.  Otherwise the patients left are the former
    ones of other ids, the appointments left are the former ones of other
    patients, the doctors are as they were, and afterwards both
    [get_patient] and a second [delete_patient] of the id raise 404. *)
Theorem delete_patient_removes_patient_and_its_appointments db i :
  (~ patient_exists db i /\
   delete_patient i db =
   (Raise (HTTPException 404 "Patient not found"), db))
  \/
  (patient_exists db i /\
   exists db',
     delete_patient i db = (Ok [("detail", "Patient deleted")], db') /\
     (forall p, In p (patients db') <->
                In p (patients db) /\ Patient.id p <> i) /\
     (forall a, In a (appointments db') <->
                In a (appointments db) /\ Appointment.patient_id a <> i) /\
     doctors db' = doctors db /\
     get_patient i db' =
       (Raise (HTTPException 404 "Patient not found"), db') /\
     delete_patient i db' =
       (Raise (HTTPException 404 "Patient not found"), db')).
Proof.
  pose proof (delete_patient_eq i db) as Hdel.
  destruct (first_cases Patient.id i (patients db))
    as [[Hno Hnone]|[p [Hin [Hid Hsome]]]].
  - left. rewrite Hnone in Hdel. split; assumption.
  - right. rewrite Hsome in Hdel.
    split; [exists p; split; assumption|].
    eexists. split; [exact Hdel|]. db_simpl.
    split; [intros r; apply in_delete_where|].
    split; [intros r; apply in_delete_where|].
    split; [reflexivity|].
    match goal with
    | |- get_patient i ?s = _ /\ _ =>
        assert (Hgone : first Patient.id i (patients s) = None)
    end.
    { db_simpl. rewrite first_delete_where, Z.eqb_refl. reflexivity. }
    split.
    + rewrite get_patient_eq, Hgone. reflexivity.
    + match goal with
      | |- delete_patient i ?s = _ =>
          pose proof (delete_patient_eq i s) as Hagain
      end.
      rewrite Hgone in Hagain. exact Hagain.
Qed.

(** X7. [delete_doctor] raises 404 "Doctor not found" and changes nothing
    when no doctor has the id.  Otherwise the doctors left are the former
    ones of other ids, the appointments left are the former ones of other
    doctors, the patients are as they were, and afterwards both
    [get_doctor] and a second [delete_doctor] of the id raise 404. *)
Theorem delete_doctor_removes_doctor_and_its_appointments db i :
  (~ doctor_exists db i /\
   delete_doctor i db =
   (Raise (HTTPException 404 "Doctor not found"), db))
  \/
  (doctor_exists db i /\
   exists db',
     delete_doctor i db = (Ok [("detail", "Doctor deleted")], db') /\
     (forall d, In d (doctors db') <->
                In d (doctors db) /\ Doctor.id d <> i) /\
     (forall a, In a (appointments db') <->
                In a (appointments db) /\ Appointment.doctor_id a <> i) /\
     patients db' = patients db /\
     get_doctor i db' =
       (Raise (HTTPException 404 "Doctor not found"), db') /\
     delete_doctor i db' =
       (Raise (HTTPException 404 "Doctor not found"), db')).
Proof.
  pose proof (delete_doctor_eq i db) as Hdel.
  destruct (first_cases Doctor.id i (doctors db))
    as [[Hno Hnone]|[d [Hin [Hid Hsome]]]].
  - left. rewrite Hnone in Hdel. split; assumption.
  - right. rewrite Hsome in Hdel.
    split; [exists d; split; assumption|].
    eexists. split; [exact Hdel|]. db_simpl.
    split; [intros r; apply in_delete_where|].
    split; [intros r; apply in_delete_where|].
    split; [reflexivity|].
    match goal with
    | |- get_doctor i ?s = _ /\ _ =>
        assert (Hgone : first Doctor.id i (doctors s) = None)
    end.
    { db_simpl. rewrite first_delete_where, Z.eqb_refl. reflexivity. }
    split.
    + rewrite get_doctor_eq, Hgone. reflexivity.
    + match goal with
      | |- delete_doctor i ?s = _ =>
          pose proof (delete_doctor_eq i s) as Hagain
      end.
      rewrite Hgone in Hagain. exact Hagain.
Qed.

Lemma serve_get r db : is_get r = true -> serve r db = db.
Proof.
  destruct r; cbn [is_get serve]; try discriminate; intros _.
  - reflexivity.
  - rewrite get_patient_eq.
    destruct (first Patient.id _ (patients db)); reflexivity.
  - reflexivity.
  - rewrite get_doctor_eq.
    destruct (first Doctor.id _ (doctors db)); reflexivity.
  - reflexivity.
  - rewrite get_appointment_eq.
    destruct (first Appointment.id _ (appointments db)); reflexivity.
Qed.

(** X9. A sequence of requests to the [@app.get] routes, whatever ids they
    ask for and whether or not they are found, leaves the database as it
    was. *)
Theorem get_requests_write_nothing rs db :
  forallb is_get rs = true -> serve_all rs db = db.
Proof.
  unfold serve_all. revert db.
  induction rs as [|r rs IH]; intros db Hrs; cbn [fold_left].
  - reflexivity.
  - cbn [forallb] in Hrs. apply andb_prop in Hrs. destruct Hrs as [Hr Hrs].
    rewrite (serve_get r db Hr). apply IH. exact Hrs.
Qed.

Lemma get_requests_write_nothing_witness :
  forallb is_get
    [GET_patients; GET_appointment 2; GET_doctor 9; GET_appointments] = true /\
  serve_all [GET_patients; GET_appointment 2; GET_doctor 9; GET_appointments]
    front_desk = front_desk.
Proof.
  split; [reflexivity|].
  apply (get_requests_write_nothing
           [GET_patients; GET_appointment 2; GET_doctor 9; GET_appointments]
           front_desk).
  reflexivity.
Defined.

Lemma create_appointment_Ok payload db appt db' :
  create_appointment payload db = (Ok appt, db') ->
  Appointment.id appt = generate_id (map Appointment.id (appointments db)) /\
  db' = with_appointments db (appointments db ++ [appt]).
Proof.
  destruct (first Patient.id (AppointmentCreate.patient_id payload)
              (patients db)) as [p|] eqn:Hp.
  - destruct (first Doctor.id (AppointmentCreate.doctor_id payload)
                (doctors db)) as [d|] eqn:Hd.
    + rewrite (create_appointment_ok payload db p d Hp Hd).
      intros Heq. injection Heq as <- <-. split; reflexivity.
    + rewrite (create_appointment_no_doctor payload db p Hp Hd).
      discriminate.
  - rewrite (create_appointment_no_patient payload db Hp). discriminate.
Qed.

(** X10. Booking and then cancelling the booked appointment gives back the
    database the booking started from: [delete_appointment] of the id that
    [create_appointment] returned succeeds and leaves all three tables as
    they were before the booking. *)
Theorem create_then_delete_appointment_restores db payload appt db' :
  create_appointment payload db = (Ok appt, db') ->
  delete_appointment (Appointment.id appt) db' =
  (Ok [("detail", "Appointment deleted")], db).
Proof.
  intros Hbook. apply create_appointment_Ok in Hbook.
  destruct Hbook as [Hid ->].
  pose proof (delete_appointment_eq (Appointment.id appt)
                (with_appointments db (appointments db ++ [appt]))) as Hdel.
  cbn [appointments with_appointments] in Hdel.
  rewrite (first_last_fresh Appointment.id (appointments db) appt Hid)
    in Hdel.
  rewrite Hdel. f_equal. unfold with_appointments. db_simpl.
  rewrite delete_where_last.
  - apply database_eta.
  - intros r Hin. rewrite Hid. apply generate_id_fresh. exact Hin.
Qed.

Lemma create_then_delete_appointment_restores_witness :
  exists appt db',
    create_appointment visit2 front_desk = (Ok appt, db') /\
    delete_appointment (Appointment.id appt) db' =
    (Ok [("detail", "Appointment deleted")], front_desk).
Proof.
  exists (Appointment.mk 3 1 1 (Date 2024 1 11) (Time 10 0) 3).
  eexists. split; [reflexivity|].
  apply (create_then_delete_appointment_restores front_desk visit2).
  reflexivity.
Defined.

(** X11. In a database that completed requests produced, registering a
    patient and then deleting it gives back the database as it was: the
    cascade of [delete_patient] finds no appointment to delete, because no
    stored appointment can reference the id of the new patient. *)
Theorem create_then_delete_patient_restores db payload :
  reachable db ->
  exists p db',
    create_patient payload db = (Ok p, db') /\
    delete_patient (Patient.id p) db' = (Ok [("detail", "Patient deleted")], db).
Proof.
  intros Hreach.
  destruct (create_patient_eq payload db) as [p [Hnew Hid]].
  exists p. eexists. split; [exact Hnew|].
  pose proof (delete_patient_eq (Patient.id p)
                (with_patients db (patients db ++ [p]))) as Hdel.
  cbn [patients with_patients] in Hdel.
  rewrite (first_last_fresh Patient.id (patients db) p Hid) in Hdel.
  rewrite Hdel. f_equal. db_simpl.
  rewrite delete_where_last.
  - rewrite delete_where_absent; [apply database_eta|].
    intros a Hin Href.
    destruct (inv_referenced db (reachable_invariant db Hreach) a Hin)
      as [Hp _].
    apply first_exists in Hp. destruct Hp as [r [Hr Hkey]].
    apply (generate_id_fresh Patient.id (patients db) r Hr). congruence.
  - intros r Hin. rewrite Hid. apply generate_id_fresh. exact Hin.
Qed.

Lemma front_desk_reachable : reachable front_desk.
Proof.
  unfold front_desk, serve_all. cbn [fold_left].
  repeat apply reachable_serve. exact reachable_empty.
Qed.

Lemma create_then_delete_patient_restores_witness :
  reachable front_desk /\
  exists p db',
    create_patient mary front_desk = (Ok p, db') /\
    delete_patient (Patient.id p) db' =
    (Ok [("detail", "Patient deleted")], front_desk).
Proof.
  split; [exact front_desk_reachable|].
  exact (create_then_delete_patient_restores front_desk mary
           front_desk_reachable).
Defined.

(** X12. In a database that completed requests produced, registering a
    doctor and then deleting it gives back the database as it was. *)
Theorem create_then_delete_doctor_restores db payload :
  reachable db ->
  exists d db',
    create_doctor payload db = (Ok d, db') /\
    delete_doctor (Doctor.id d) db' = (Ok [("detail", "Doctor deleted")], db).
Proof.
  intros Hreach.
  destruct (create_doctor_eq payload db) as [d [Hnew Hid]].
  exists d. eexists. split; [exact Hnew|].
  pose proof (delete_doctor_eq (Doctor.id d)
                (with_doctors db (doctors db ++ [d]))) as Hdel.
  cbn [doctors with_doctors] in Hdel.
  rewrite (first_last_fresh Doctor.id (doctors db) d Hid) in Hdel.
  rewrite Hdel. f_equal. db_simpl.
  rewrite delete_where_last.
  - rewrite delete_where_absent; [apply database_eta|].
    intros a Hin Href.
    destruct (inv_referenced db (reachable_invariant db Hreach) a Hin)
      as [_ Hd].
    apply first_exists in Hd. destruct Hd as [r [Hr Hkey]].
    apply (generate_id_fresh Doctor.id (doctors db) r Hr). congruence.
  - intros r Hin. rewrite Hid. apply generate_id_fresh. exact Hin.
Qed.

Lemma create_then_delete_doctor_restores_witness :
  reachable front_desk /\
  exists d db',
    create_doctor smith front_desk = (Ok d, db') /\
    delete_doctor (Doctor.id d) db' =
    (Ok [("detail", "Doctor deleted")], front_desk).
Proof.
  split; [exact front_desk_reachable|].
  exact (create_then_delete_doctor_restores front_desk smith
           front_desk_reachable).
Defined.

(** X13. The three [@app.put] handlers are idempotent: run a second time
    with the same id and payload on the database the first run left, each
    returns what it returned the first time and leaves that database as it
    is. *)
Theorem put_twice_is_put_once db i :
  (forall payload,
      update_patient i payload (snd (update_patient i payload db)) =
      update_patient i payload db)
  /\
  (forall payload,
      update_doctor i payload (snd (update_doctor i payload db)) =
      update_doctor i payload db)
  /\
  (forall payload,
      update_appointment i payload (snd (update_appointment i payload db)) =
      update_appointment i payload db).
Proof.
  split; [|split]; intros payload.
  - pose proof (update_patient_eq i payload db) as H1.
    destruct (first Patient.id i (patients db)) as [old|] eqn:Hold;
      rewrite H1; cbn [snd]; [|exact H1].
    set (obj := setattr_patient old payload) in *.
    assert (Hid : Patient.id obj = i)
      by (apply first_Some in Hold; apply Hold).
    pose proof (update_patient_eq i payload
                  (with_patients db
                     (update_row Patient.id obj (patients db)))) as H2.
    cbn [patients with_patients] in H2.
    rewrite first_update_row, Hid, Z.eqb_refl, Hold in H2.
    rewrite H2. unfold with_patients. db_simpl.
    change (setattr_patient obj payload) with obj.
    rewrite update_row_idem. reflexivity.
  - pose proof (update_doctor_eq i payload db) as H1.
    destruct (first Doctor.id i (doctors db)) as [old|] eqn:Hold;
      rewrite H1; cbn [snd]; [|exact H1].
    set (obj := setattr_doctor old payload) in *.
    assert (Hid : Doctor.id obj = i)
      by (apply first_Some in Hold; apply Hold).
    pose proof (update_doctor_eq i payload
                  (with_doctors db
                     (update_row Doctor.id obj (doctors db)))) as H2.
    cbn [doctors with_doctors] in H2.
    rewrite first_update_row, Hid, Z.eqb_refl, Hold in H2.
    rewrite H2. unfold with_doctors. db_simpl.
    change (setattr_doctor obj payload) with obj.
    rewrite update_row_idem. reflexivity.
  - destruct (first Appointment.id i (appointments db)) as [old|] eqn:Hold.
    + destruct (first Patient.id (AppointmentCreate.patient_id payload)
                  (patients db)) as [p|] eqn:Hp.
      * destruct (first Doctor.id (AppointmentCreate.doctor_id payload)
                    (doctors db)) as [d|] eqn:Hd.
        -- rewrite (update_appointment_ok i payload db old p d Hold Hp Hd).
           cbn [snd].
           set (obj := setattr_appointment old payload).
           assert (Hid : Appointment.id obj = i)
             by (apply first_Some in Hold; apply Hold).
           rewrite (update_appointment_ok i payload _ obj p d).
           ++ unfold with_appointments. db_simpl.
              change (setattr_appointment obj payload) with obj.
              rewrite update_row_idem. reflexivity.
           ++ db_simpl.
              rewrite first_update_row, Hid, Z.eqb_refl, Hold. reflexivity.
           ++ exact Hp.
           ++ exact Hd.
        -- rewrite (update_appointment_no_doctor i payload db old p
                      Hold Hp Hd).
           cbn [snd].
           apply (update_appointment_no_doctor i payload db old p
                    Hold Hp Hd).
      * rewrite (update_appointment_no_patient i payload db old Hold Hp).
        cbn [snd].
        apply (update_appointment_no_patient i payload db old Hold Hp).
    + rewrite (update_appointment_no_appointment i payload db Hold).
      cbn [snd]. apply (update_appointment_no_appointment i payload db Hold).
Qed.

Lemma length_delete_where_key {R} (key : R -> Z) rows a :
  NoDup (map key rows) -> In a rows ->
  S (List.length (delete_where key (key a) rows)) = List.length rows.
Proof.
  unfold delete_where.
  induction rows as [|b rows IH]; cbn [map filter List.length In];
    intros Hnd Hin; [contradiction|].
  inversion Hnd as [|? ? Hnotin Hnd']; subst.
  destruct Hin as [->|Hin].
  - rewrite Z.eqb_refl. cbn [negb]. f_equal.
    fold (delete_where key (key a) rows).
    rewrite delete_where_absent; [reflexivity|].
    intros r Hr Heq. apply Hnotin. rewrite <- Heq. apply in_map. exact Hr.
  - destruct (Z.eqb_spec (key b) (key a)) as [Heq|Hne]; cbn [negb List.length].
    + exfalso. apply Hnotin. rewrite Heq. apply in_map. exact Hin.
    + f_equal. apply IH; assumption.
Qed.

(** X14. With unique ids, [delete_appointment] of an id that an appointment
    has removes one row: the appointments left are one fewer. *)
Theorem delete_appointment_removes_one_row db i :
  primary_key db -> appointment_exists db i ->
  exists db',
    delete_appointment i db = (Ok [("detail", "Appointment deleted")], db') /\
    S (List.length (appointments db')) = List.length (appointments db).
Proof.
  intros [_ [_ Hpk]] [a [Hin Hid]].
  pose proof (delete_appointment_eq i db) as Hdel.
  rewrite <- Hid in *.
  rewrite (first_In Appointment.id (appointments db) a Hpk Hin) in Hdel.
  eexists. split; [exact Hdel|]. db_simpl.
  apply length_delete_where_key; assumption.
Qed.

Lemma delete_appointment_removes_one_row_witness :
  primary_key front_desk /\ appointment_exists front_desk 2 /\
  exists db',
    delete_appointment 2 front_desk =
      (Ok [("detail", "Appointment deleted")], db') /\
    S (List.length (appointments db')) = List.length (appointments front_desk).
Proof.
  assert (Hpk : primary_key front_desk).
  { repeat split; repeat constructor; simpl; intuition discriminate. }
  assert (Ha : appointment_exists front_desk 2).
  { exists (Appointment.mk 2 1 1 (Date 2024 1 11) (Time 10 0) 2).
    split; [right; left|]; reflexivity. }
  split; [exact Hpk|]. split; [exact Ha|].
  exact (delete_appointment_removes_one_row front_desk 2 Hpk Ha).
Defined.

(** X15. A request to an [@app.put] route, found or not, leaves in each of
    the three tables the same ids in the same order: an update adds no row,
    removes none and renumbers none. *)
Theorem put_keeps_the_ids r db :
  is_put r = true ->
  map Patient.id (patients (serve r db)) = map Patient.id (patients db) /\
  map Doctor.id (doctors (serve r db)) = map Doctor.id (doctors db) /\
  map Appointment.id (appointments (serve r db)) =
  map Appointment.id (appointments db).
Proof.
  destruct r as
    [payload| |i|i payload|i|payload| |i|i payload|i|payload| |i|i payload|i];
    cbn [is_put serve]; try discriminate; intros _.
  - pose proof (update_patient_eq i payload db) as H.
    destruct (first Patient.id i (patients db)); rewrite H; db_simpl;
      rewrite ?map_key_update_row; auto.
  - pose proof (update_doctor_eq i payload db) as H.
    destruct (first Doctor.id i (doctors db)); rewrite H; db_simpl;
      rewrite ?map_key_update_row; auto.
  - destruct (first Appointment.id i (appointments db)) as [old|] eqn:Ha.
    + destruct (first Patient.id (AppointmentCreate.patient_id payload)
                  (patients db)) as [p|] eqn:Hp.
      * destruct (first Doctor.id (AppointmentCreate.doctor_id payload)
                    (doctors db)) as [d|] eqn:Hd.
        -- rewrite (update_appointment_ok i payload db old p d Ha Hp Hd).
           db_simpl. rewrite map_key_update_row. auto.
        -- rewrite (update_appointment_no_doctor i payload db old p
                      Ha Hp Hd). auto.
      * rewrite (update_appointment_no_patient i payload db old Ha Hp). auto.
    + rewrite (update_appointment_no_appointment i payload db Ha). auto.
Qed.

Lemma put_keeps_the_ids_witness :
  is_put (PUT_appointment 1 visit1_moved) = true /\
  map Appointment.id
    (appointments (serve (PUT_appointment 1 visit1_moved) front_desk)) =
  map Appointment.id (appointments front_desk).
Proof.
  split; [reflexivity|].
  exact (proj2 (proj2 (put_keeps_the_ids (PUT_appointment 1 visit1_moved)
                         front_desk eq_refl))).
Defined.

(** X16. In every database that completed requests produce from the empty
    one, no two rows of a table share an id, and no two appointments share
    a token number. *)
Theorem reachable_ids_and_tokens_unique db :
  reachable db ->
  primary_key db /\
  (forall a b,
      In a (appointments db) -> In b (appointments db) ->
      Appointment.token_number a = Appointment.token_number b -> a = b).
Proof.
  intros Hreach. pose proof (reachable_invariant db Hreach) as Hinv.
  split; [apply (inv_primary_key db Hinv)|].
  intros a b Ha Hb Htok.
  destruct (inv_primary_key db Hinv) as [_ [_ Hpk]].
  rewrite (inv_confirmed db Hinv a Ha), (inv_confirmed db Hinv b Hb) in Htok.
  pose proof (first_In Appointment.id _ a Hpk Ha) as H1.
  pose proof (first_In Appointment.id _ b Hpk Hb) as H2.
  rewrite Htok, H2 in H1. congruence.
Qed.

Lemma reachable_ids_and_tokens_unique_witness :
  reachable front_desk /\ primary_key front_desk.
Proof.
  split; [exact front_desk_reachable|].
  exact (proj1 (reachable_ids_and_tokens_unique front_desk
                  front_desk_reachable)).
Defined.

(** X17. [login_for_access_token] accepts one pair only: for the username
    "admin" with the password "admin123" it returns a bearer token that
    signs the claims [sub = "admin"] and [exp] sixty minutes after the call;
    for every other username or password it raises the same 401
    "Incorrect username or password". *)
Theorem login_accepts_the_demo_pair_only jwt_encode utcnow u pw :
  (u = "admin" /\ pw = "admin123" /\
   login_for_access_token jwt_encode utcnow u pw =
   Ok [("access_token",
        jwt_encode [("sub", Str "admin"); ("exp", Datetime (utcnow + 3600))]
          SECRET_KEY "HS256");
       ("token_type", "bearer")])
  \/
  ((u <> "admin" \/ pw <> "admin123") /\
   login_for_access_token jwt_encode utcnow u pw =
   Raise (HTTPException 401 "Incorrect username or password")).
Proof.
  unfold login_for_access_token, FAKE_USERS. cbn [dict_get].
  destruct (String.eqb_spec "admin" u) as [<-|Hu].
  - cbn [password].
    destruct (String.eqb_spec "admin123" pw) as [<-|Hpw]; cbn [negb].
    + left. split; [reflexivity|]. split; reflexivity.
    + right. split; [right; congruence | reflexivity].
  - right. split; [left; congruence | reflexivity].
Qed.

Lemma update_appointment_Ok i payload db new db' :
  update_appointment i payload db = (Ok new, db') ->
  Appointment.id new = i /\
  Appointment.patient_id new = AppointmentCreate.patient_id payload /\
  Appointment.doctor_id new = AppointmentCreate.doctor_id payload /\
  first Appointment.id i (appointments db') = Some new /\
  db' = with_appointments db
          (update_row Appointment.id new (appointments db)).
Proof.
  destruct (first Appointment.id i (appointments db)) as [old|] eqn:Ha.
  - destruct (first Patient.id (AppointmentCreate.patient_id payload)
                (patients db)) as [p|] eqn:Hp.
    + destruct (first Doctor.id (AppointmentCreate.doctor_id payload)
                  (doctors db)) as [d|] eqn:Hd.
      * rewrite (update_appointment_ok i payload db old p d Ha Hp Hd).
        intros Heq. injection Heq as <- <-.
        assert (Hid : Appointment.id (setattr_appointment old payload) = i)
          by (apply first_Some in Ha; apply Ha).
        repeat split; try reflexivity; try exact Hid.
        db_simpl. rewrite first_update_row, Hid, Z.eqb_refl, Ha.
        reflexivity.
      * rewrite (update_appointment_no_doctor i payload db old p Ha Hp Hd).
        discriminate.
    + rewrite (update_appointment_no_patient i payload db old Ha Hp).
      discriminate.
  - rewrite (update_appointment_no_appointment i payload db Ha).
    discriminate.
Qed.

(** X18. After a successful [update_appointment], the appointment depends on
    the patient and the doctor of the payload only: deleting any other
    patient, or any other doctor, the former ones included, leaves
    [get_appointment] of its id returning the updated appointment. *)
Theorem updated_appointment_survives_other_deletes db i payload new db' :
  update_appointment i payload db = (Ok new, db') ->
  (forall q, q <> AppointmentCreate.patient_id payload ->
             fst (get_appointment i (snd (delete_patient q db'))) = Ok new)
  /\
  (forall q, q <> AppointmentCreate.doctor_id payload ->
             fst (get_appointment i (snd (delete_doctor q db'))) = Ok new).
Proof.
  intros Hput. apply update_appointment_Ok in Hput.
  destruct Hput as [Hid [Hp [Hd [Hfound _]]]].
  split; intros q Hq.
  - pose proof (delete_patient_eq q db') as Hdel.
    destruct (first Patient.id q (patients db')); rewrite Hdel; cbn [snd];
      rewrite get_appointment_eq; db_simpl.
    + unfold delete_where. erewrite first_filter; [reflexivity|exact Hfound|].
      rewrite Hp. rewrite (proj2 (Z.eqb_neq _ _)) by congruence.
      reflexivity.
    + rewrite Hfound. reflexivity.
  - pose proof (delete_doctor_eq q db') as Hdel.
    destruct (first Doctor.id q (doctors db')); rewrite Hdel; cbn [snd];
      rewrite get_appointment_eq; db_simpl.
    + unfold delete_where. erewrite first_filter; [reflexivity|exact Hfound|].
      rewrite Hd. rewrite (proj2 (Z.eqb_neq _ _)) by congruence.
      reflexivity.
    + rewrite Hfound. reflexivity.
Qed.

Lemma updated_appointment_survives_other_deletes_witness :
  exists new db',
    update_appointment 1
      (AppointmentCreate.mk 2 1 (Date 2024 2 1) (Time 8 30)) waiting_room =
    (Ok new, db') /\
    Appointment.patient_id new = 2 /\
    fst (get_appointment 1 (snd (delete_patient 1 db'))) = Ok new /\
    fst (get_appointment 2 (snd (delete_patient 1 db'))) =
    Raise (HTTPException 404 "Appointment not found").
Proof.
  exists (Appointment.mk 1 2 1 (Date 2024 2 1) (Time 8 30) 1).
  exists (snd (update_appointment 1
                 (AppointmentCreate.mk 2 1 (Date 2024 2 1) (Time 8 30))
                 waiting_room)).
  assert (Hput :
    update_appointment 1
      (AppointmentCreate.mk 2 1 (Date 2024 2 1) (Time 8 30)) waiting_room =
    (Ok (Appointment.mk 1 2 1 (Date 2024 2 1) (Time 8 30) 1),
     snd (update_appointment 1
            (AppointmentCreate.mk 2 1 (Date 2024 2 1) (Time 8 30))
            waiting_room))) by reflexivity.
  split; [exact Hput|]. split; [reflexivity|].
  split; [|reflexivity].
  apply (proj1 (updated_appointment_survives_other_deletes waiting_room 1
                  (AppointmentCreate.mk 2 1 (Date 2024 2 1) (Time 8 30))
                  _ _ Hput)).
  discriminate.
Defined.

Lemma dict_get_update_same {V} (d : list (string * V)) k v :
  dict_get (dict_update d k v) k = Some v.
Proof.
  induction d as [|[k' v'] d IH]; cbn [dict_update dict_get].
  - rewrite String.eqb_refl. reflexivity.
  - destruct (String.eqb k' k) eqn:Hk; cbn [dict_get].
    + rewrite String.eqb_refl. reflexivity.
    + rewrite Hk. exact IH.
Qed.

Lemma dict_get_update_other {V} (d : list (string * V)) k v k0 :
  k0 <> k -> dict_get (dict_update d k v) k0 = dict_get d k0.
Proof.
  intros Hne. induction d as [|[k' v'] d IH]; cbn [dict_update dict_get].
  - rewrite (proj2 (String.eqb_neq k k0)) by congruence. reflexivity.
  - destruct (String.eqb_spec k' k) as [->|Hk]; cbn [dict_get].
    + rewrite (proj2 (String.eqb_neq k k0)) by congruence. reflexivity.
    + destruct (String.eqb k' k0); [reflexivity | exact IH].
Qed.

(** X19. The claims that [create_access_token] signs, with [SECRET_KEY] and
    HS256, have [exp] at the time of the call plus the given delta, also
    when the data came with an [exp] of its own, and every other claim as
    the data has it. *)
Theorem create_access_token_sets_exp jwt_encode utcnow data expires_delta :
  exists claims,
    create_access_token jwt_encode utcnow data expires_delta =
    jwt_encode claims "CHANGE_THIS_TO_SOMETHING_RANDOM_AND_LONG" "HS256" /\
    dict_get claims "exp" = Some (Datetime (utcnow + expires_delta)) /\
    (forall k, k <> "exp" -> dict_get claims k = dict_get data k).
Proof.
  eexists. split; [reflexivity|]. split.
  - apply dict_get_update_same.
  - intros k Hk. apply dict_get_update_other. exact Hk.
Qed.

(** X20. Once [delete_patient] has deleted a patient, [create_appointment]
    for that patient raises 404 "Patient not found"; once [delete_doctor]
    has deleted a doctor, [create_appointment] for that doctor and a patient
    that exists raises 404 "Doctor not found".  Neither stores anything. *)
Theorem no_booking_for_the_deleted db i msg db' payload :
  (delete_patient i db = (Ok msg, db') ->
   AppointmentCreate.patient_id payload = i ->
   create_appointment payload db' =
   (Raise (HTTPException 404 "Patient not found"), db'))
  /\
  (delete_doctor i db = (Ok msg, db') ->
   AppointmentCreate.doctor_id payload = i ->
   patient_exists db' (AppointmentCreate.patient_id payload) ->
   create_appointment payload db' =
   (Raise (HTTPException 404 "Doctor not found"), db')).
Proof.
  split.
  - intros Hdel Hid. pose proof (delete_patient_eq i db) as Heq.
    destruct (first Patient.id i (patients db)); rewrite Heq in Hdel;
      [|discriminate].
    injection Hdel as _ <-.
    apply create_appointment_no_patient. db_simpl.
    rewrite Hid, first_delete_where, Z.eqb_refl. reflexivity.
  - intros Hdel Hid Hp. pose proof (delete_doctor_eq i db) as Heq.
    destruct (first Doctor.id i (doctors db)); rewrite Heq in Hdel;
      [|discriminate].
    apply first_present in Hp. destruct Hp as [p Hp].
    injection Hdel as _ <-.
    apply (create_appointment_no_doctor payload _ p Hp). db_simpl.
    rewrite Hid, first_delete_where, Z.eqb_refl. reflexivity.
Qed.

Lemma no_booking_for_the_deleted_witness :
  (exists db',
      delete_patient 1 waiting_room =
        (Ok [("detail", "Patient deleted")], db') /\
      create_appointment visit1 db' =
        (Raise (HTTPException 404 "Patient not found"), db'))
  /\
  (exists db',
      delete_doctor 1 waiting_room =
        (Ok [("detail", "Doctor deleted")], db') /\
      patient_exists db' 1 /\
      create_appointment visit1 db' =
        (Raise (HTTPException 404 "Doctor not found"), db')).
Proof.
  split.
  - exists (snd (delete_patient 1 waiting_room)).
    assert (Hdel : delete_patient 1 waiting_room =
              (Ok [("detail", "Patient deleted")],
               snd (delete_patient 1 waiting_room))) by reflexivity.
    split; [exact Hdel|].
    exact (proj1 (no_booking_for_the_deleted waiting_room 1 _ _ visit1)
             Hdel eq_refl).
  - exists (snd (delete_doctor 1 waiting_room)).
    assert (Hdel : delete_doctor 1 waiting_room =
              (Ok [("detail", "Doctor deleted")],
               snd (delete_doctor 1 waiting_room))) by reflexivity.
    assert (Hp : patient_exists (snd (delete_doctor 1 waiting_room)) 1).
    { exists (Patient.mk 1 "Jane" "555" 30 "F").
      split; [left|]; reflexivity. }
    split; [exact Hdel|]. split; [exact Hp|].
    exact (proj2 (no_booking_for_the_deleted waiting_room 1 _ _ visit1)
             Hdel eq_refl Hp).
Defined.
